(** * anythingllm_auth: token lifecycle and authenticated-request protocol

    Shallow embedding of [anythingllm_auth/utils.py] ([is_token_expired],
    [format_auth_header], [mask_token], [retry_with_backoff],
    [sanitize_input], the instance detectors), [anythingllm_auth/config.py]
    ([get_full_url], [validate_base_url]) and [anythingllm_auth/auth.py]
    ([TokenManager], [AuthClient], [AsyncAuthClient]).  The blocking and the non-blocking
    client run the same code; they differ only in which exceptions their
    [except requests.RequestException] / [except aiohttp.ClientError]
    handlers catch, which is the [mode] parameter below. *)

From Stdlib Require Import String Ascii List ZArith QArith Bool Lia.
Import ListNotations.
Open Scope string_scope.
Set Warnings "-register-all".

(** ** Python values produced by [json.loads]

    [JNull] is Python's [None] (JSON [null]); a JSON object is kept as the
    list of its members in document order. *)
Inductive pyval : Type :=
| JNull
| JBool (b : bool)
| JNum (q : Q)
| JStr (s : string)
| JArr (xs : list pyval)
| JObj (kvs : list (string * pyval)).

(** Python truthiness ([if not x]). *)
Definition truthy (v : pyval) : bool :=
  match v with
  | JNull => false
  | JBool b => b
  | JNum q => negb (Qeq_bool q 0)
  | JStr s => negb (String.eqb s EmptyString)
  | JArr xs => match xs with [] => false | _ => true end
  | JObj kvs => match kvs with [] => false | _ => true end
  end.

(** [dict.get(key)] on the dict built by [json.loads]: with duplicate keys
    the last member wins. *)
Fixpoint dict_get (kvs : list (string * pyval)) (key : string) : option pyval :=
  match kvs with
  | [] => None
  | (k, v) :: rest =>
      match dict_get rest key with
      | Some w => Some w
      | None => if String.eqb k key then Some v else None
      end
  end.

(** ** Exceptions *)
Inductive exn : Type :=
| AuthenticationError (msg : string)
| APIError (msg : string) (status_code : option Z)
| TokenValidationError (msg : string)
| TransportError (msg : string)
    (** [requests.RequestException] / [aiohttp.ClientError] raised by the
        HTTP library for a failed exchange *)
| JSONDecodeError
    (** [response.json()] on a body that is not JSON *)
| AttributeError
| TypeError
| Base64Error
| OverflowError
    (** an int too large to convert to a float *).

Inductive outcome (A : Type) : Type :=
| Ok (a : A)
| Raise (e : exn).
Arguments Ok {A} a.
Arguments Raise {A} e.

(** ** [utils.is_token_expired]

    The two library decoders the oracle calls, [base64.urlsafe_b64decode]
    and [json.loads], are parameters: a failing call is [None], which the
    oracle's [except Exception] turns into [True].  Every fact about the
    oracle below holds for any such pair of decoders. *)

(** [s.split(c)] *)
Fixpoint split_on (c : ascii) (s : string) : list string :=
  match s with
  | EmptyString => [EmptyString]
  | String a rest =>
      if Ascii.eqb a c then EmptyString :: split_on c rest
      else match split_on c rest with
           | [] => [String a EmptyString]
           | w :: ws => String a w :: ws
           end
  end.

Fixpoint repeat_char (c : ascii) (n : nat) : string :=
  match n with
  | O => EmptyString
  | S k => String c (repeat_char c k)
  end.

(** [padding = len(payload) % 4; if padding: payload += '=' * (4 - padding)] *)
Definition add_padding (payload : string) : string :=
  let padding := Nat.modulo (String.length payload) 4 in
  if Nat.eqb padding 0 then payload
  else payload ++ repeat_char "=" (4 - padding).

(** *** Python floats

    A float is a double: a finite value, kept as the rational it denotes,
    or an infinity.  [round_double x] is the double nearest to [x], ties
    to even, with the IEEE 754 binary64 range: exponents down to the
    subnormal [2 ^ -1074], and [+inf] / [-inf] from [2 ^ 1024] on (after
    rounding). *)
Inductive pyfloat : Type :=
| PFin (q : Q)
| PInf
| PNInf.

(** [n / d] ([d > 0]) rounded to an integer, ties to even. *)
Definition round_half_even (n d : Z) : Z :=
  let q := Z.div n d in
  let r := Z.modulo n d in
  match Z.compare (2 * r) d with
  | Lt => q
  | Gt => q + 1
  | Eq => if Z.even q then q else q + 1
  end%Z.

(** [2 ^ e] for any integer [e]. *)
Definition pow2Q (e : Z) : Q :=
  if Z.leb 0 e then inject_Z (2 ^ e) else Qmake 1 (Z.to_pos (2 ^ (- e))).

Definition round_double (x : Q) : pyfloat :=
  let n := Qnum x in
  let d := Zpos (Qden x) in
  if Z.eqb n 0 then PFin 0 else
  let a := Z.abs n in
  let l := (Z.log2 a - Z.log2 d)%Z in
  (* the exponent of [a / d]: [l] or [l - 1] *)
  let fl := if (if Z.leb 0 l then Z.leb (d * 2 ^ l) a else Z.leb d (a * 2 ^ (- l)))%Z
            then l else (l - 1)%Z in
  (* 53 significant bits, fewer below the normal range *)
  let e := Z.max (fl - 52) (-1074) in
  let m := round_half_even (a * 2 ^ (Z.max (- e) 0)) (d * 2 ^ (Z.max e 0))%Z in
  if Z.leb 1024 (Z.log2 m + e)%Z then (if Z.ltb n 0 then PNInf else PInf)
  else PFin (Qred (inject_Z (Z.sgn n * m)%Z * pow2Q e)).

(** [float(n)] for an int, as [float + int] converts its right operand:
    the nearest double, and [OverflowError] when that is out of range. *)
Definition int_to_float (n : Z) : outcome Q :=
  match round_double (inject_Z n) with
  | PFin q => Ok q
  | _ => Raise OverflowError
  end.

(** [x + y] on two finite floats: the exact sum rounded to a double. *)
Definition float_add (x y : Q) : pyfloat := round_double (x + y).

(** Whether the double nearest to [x] is [x] itself. *)
Definition float_exact (x : Q) : bool :=
  match round_double x with PFin y => Qeq_bool y x | _ => false end.

(** [x >= exp] for [x] a float and [exp] whatever the payload holds: an
    int or a float ([JNum], finite) compares exactly with [x], [bool]
    compares as [0]/[1], anything else raises [TypeError]. *)
Definition py_ge (x : pyfloat) (v : pyval) : outcome bool :=
  let ge q := match x with PFin f => Qle_bool q f | PInf => true | PNInf => false end in
  match v with
  | JNum q => Ok (ge q)
  | JBool b => Ok (ge (if b then 1 else 0))
  | _ => Raise TypeError
  end.

(** [d.get(key)]: [None] for a missing key; [AttributeError] when [d] is
    not a dict. *)
Definition py_get (d : pyval) (key : string) : outcome pyval :=
  match d with
  | JObj kvs => match dict_get kvs key with Some v => Ok v | None => Ok JNull end
  | _ => Raise AttributeError
  end.

(** [d.get(key, default)] *)
Definition py_get_default (d : pyval) (key : string) (default : pyval) : outcome pyval :=
  match d with
  | JObj kvs => match dict_get kvs key with Some v => Ok v | None => Ok default end
  | _ => Raise AttributeError
  end.

Section Oracle.

Variable urlsafe_b64decode : string -> option string.
Variable json_loads : string -> option pyval.

(** The body of the [try] block; [token] is whatever is stored ([split] on
    a non-string raises [AttributeError]), [current_time] the float
    [time.time()] returned, and [current_time + buffer_seconds] is float
    addition. *)
Definition is_token_expired_body (token : pyval) (buffer_seconds : Z)
    (current_time : Q) : outcome bool :=
  match token with
  | JStr tok =>
      let parts := split_on "." tok in
      if negb (Nat.eqb (length parts) 3) then Ok true
      else
        let payload := add_padding (nth 1 parts EmptyString) in
        match urlsafe_b64decode payload with
        | None => Raise Base64Error
        | Some decoded =>
            match json_loads decoded with
            | None => Raise JSONDecodeError
            | Some payload_data =>
                match py_get payload_data "exp" with
                | Raise e => Raise e
                | Ok exp =>
                    if negb (truthy exp) then Ok true
                    else
                      match int_to_float buffer_seconds with
                      | Raise e => Raise e
                      | Ok b => py_ge (float_add current_time b) exp
                      end
                end
            end
        end
  | _ => Raise AttributeError
  end.

(** [except Exception: return True] *)
Definition is_token_expired (token : pyval) (buffer_seconds : Z)
    (current_time : Q) : bool :=
  match is_token_expired_body token buffer_seconds current_time with
  | Ok b => b
  | Raise _ => true
  end.

End Oracle.

(** ** Concrete decoders

    The oracle is stated for any decoders; these two are used to run it on
    concrete tokens.  [b64url_decode] is [base64.urlsafe_b64decode] on
    input over the URL-safe alphabet with trailing [=] padding (other
    characters are refused here, where Python would skip them);
    [json_loads_ascii] is [json.loads] on ASCII documents made of objects,
    arrays, strings without escapes, integers, [true], [false] and [null]
    (anything else is refused here). *)

Definition b64_value (c : ascii) : option Z :=
  let n := Z.of_nat (nat_of_ascii c) in
  if ((65 <=? n) && (n <=? 90))%Z then Some (n - 65)%Z
  else if ((97 <=? n) && (n <=? 122))%Z then Some (n - 71)%Z
  else if ((48 <=? n) && (n <=? 57))%Z then Some (n + 4)%Z
  else if (n =? 45)%Z then Some 62%Z
  else if (n =? 95)%Z then Some 63%Z
  else None.

Definition byte_of (z : Z) : ascii := ascii_of_nat (Z.to_nat (z mod 256)%Z).

Fixpoint strip_padding (s : string) : string :=
  match s with
  | EmptyString => EmptyString
  | String c rest =>
      if Ascii.eqb c "=" then
        (if forallb (fun d => Ascii.eqb d "=") (list_ascii_of_string rest)
         then EmptyString else s)
      else String c (strip_padding rest)
  end.

Fixpoint b64_values (s : string) : option (list Z) :=
  match s with
  | EmptyString => Some []
  | String c rest =>
      match b64_value c, b64_values rest with
      | Some v, Some vs => Some (v :: vs)
      | _, _ => None
      end
  end.

Fixpoint b64_groups (vs : list Z) : option string :=
  match vs with
  | [] => Some EmptyString
  | [_] => None
  | [a; b] => Some (String (byte_of (a * 4 + b / 16)) EmptyString)
  | [a; b; c] =>
      Some (String (byte_of (a * 4 + b / 16))
             (String (byte_of ((b mod 16) * 16 + c / 4)) EmptyString))
  | a :: b :: c :: d :: rest =>
      match b64_groups rest with
      | None => None
      | Some out =>
          Some (String (byte_of (a * 4 + b / 16))
                 (String (byte_of ((b mod 16) * 16 + c / 4))
                   (String (byte_of ((c mod 4) * 64 + d)) out)))
      end
  end%Z.

Definition b64url_decode (s : string) : option string :=
  if negb (Nat.eqb (Nat.modulo (String.length s) 4) 0) then None
  else match b64_values (strip_padding s) with
       | None => None
       | Some vs => b64_groups vs
       end.

Definition is_ws (c : ascii) : bool :=
  Ascii.eqb c " " || Ascii.eqb c "009" || Ascii.eqb c "010" || Ascii.eqb c "013".

Fixpoint skip_ws (s : list ascii) : list ascii :=
  match s with
  | c :: rest => if is_ws c then skip_ws rest else s
  | [] => []
  end.

Definition is_digit (c : ascii) : bool :=
  let n := nat_of_ascii c in Nat.leb 48 n && Nat.leb n 57.

Fixpoint digits (acc : Z) (s : list ascii) : Z * list ascii :=
  match s with
  | c :: rest =>
      if is_digit c then digits (acc * 10 + Z.of_nat (nat_of_ascii c - 48))%Z rest
      else (acc, s)
  | [] => (acc, [])
  end.

Definition dquote : ascii := ascii_of_nat 34.

Fixpoint str_chars (acc : list ascii) (s : list ascii) : option (string * list ascii) :=
  match s with
  | [] => None
  | c :: rest =>
      if Ascii.eqb c dquote then Some (string_of_list_ascii (rev acc), rest)
      else if Ascii.eqb c "\" then None
      else str_chars (c :: acc) rest
  end.

Definition lit (w : string) (v : pyval) (s : list ascii) : option (pyval * list ascii) :=
  let n := String.length w in
  if String.eqb (string_of_list_ascii (firstn n s)) w then Some (v, skipn n s)
  else None.

Fixpoint json_value (fuel : nat) (s : list ascii) : option (pyval * list ascii) :=
  match fuel with
  | O => None
  | S fuel =>
      match skip_ws s with
      | [] => None
      | (c :: rest) as t =>
          if Ascii.eqb c "{" then
            match skip_ws rest with
            | c' :: rest' =>
                if Ascii.eqb c' "}" then Some (JObj [], rest')
                else json_members fuel [] t
            | [] => None
            end
          else if Ascii.eqb c "[" then
            match skip_ws rest with
            | c' :: rest' =>
                if Ascii.eqb c' "]" then Some (JArr [], rest')
                else json_elements fuel [] t
            | [] => None
            end
          else if Ascii.eqb c dquote then
            match str_chars [] rest with
            | Some (w, r) => Some (JStr w, r)
            | None => None
            end
          else if Ascii.eqb c "-" then
            match rest with
            | d :: _ => if is_digit d then
                          let '(n, r) := digits 0 rest in Some (JNum (inject_Z (- n)), r)
                        else None
            | [] => None
            end
          else if is_digit c then
            let '(n, r) := digits 0 t in Some (JNum (inject_Z n), r)
          else if Ascii.eqb c "t" then lit "true" (JBool true) t
          else if Ascii.eqb c "f" then lit "false" (JBool false) t
          else if Ascii.eqb c "n" then lit "null" JNull t
          else None
      end
  end
(** [t] starts with the opening brace or a comma *)
with json_members (fuel : nat) (acc : list (string * pyval)) (t : list ascii)
    : option (pyval * list ascii) :=
  match fuel with
  | O => None
  | S fuel =>
      match skip_ws (tl t) with
      | c :: rest =>
          if Ascii.eqb c dquote then
            match str_chars [] rest with
            | Some (k, r) =>
                match skip_ws r with
                | c' :: r' =>
                    if Ascii.eqb c' ":" then
                      match json_value fuel r' with
                      | Some (v, r'') =>
                          match skip_ws r'' with
                          | d :: r3 =>
                              if Ascii.eqb d "}" then Some (JObj (rev ((k, v) :: acc)), r3)
                              else if Ascii.eqb d "," then json_members fuel ((k, v) :: acc) (d :: r3)
                              else None
                          | [] => None
                          end
                      | None => None
                      end
                    else None
                | [] => None
                end
            | None => None
            end
          else None
      | [] => None
      end
  end
(** [t] starts with the opening bracket or a comma *)
with json_elements (fuel : nat) (acc : list pyval) (t : list ascii)
    : option (pyval * list ascii) :=
  match fuel with
  | O => None
  | S fuel =>
      match json_value fuel (tl t) with
      | Some (v, r) =>
          match skip_ws r with
          | d :: r' =>
              if Ascii.eqb d "]" then Some (JArr (rev (v :: acc)), r')
              else if Ascii.eqb d "," then json_elements fuel (v :: acc) (d :: r')
              else None
          | [] => None
          end
      | None => None
      end
  end.

Definition json_loads_ascii (s : string) : option pyval :=
  let cs := list_ascii_of_string s in
  match json_value (S (length cs)) cs with
  | Some (v, rest) => match skip_ws rest with [] => Some v | _ => None end
  | None => None
  end.

(** ** Configuration ([config.Config]); only the fields the client reads *)
Record Config : Type := mk_config {
  base_url : string;
  api_prefix : string;
  login_endpoint : string;
  refresh_endpoint : string;
  validate_endpoint : string;
  token_header : string;
  token_prefix : string;
  token_expiry_buffer : Z
}.

Fixpoint lstrip_slash (s : string) : string :=
  match s with
  | String c rest => if Ascii.eqb c "/" then lstrip_slash rest else s
  | EmptyString => EmptyString
  end.

Definition rstrip_slash (s : string) : string :=
  string_of_list_ascii
    (rev (list_ascii_of_string (lstrip_slash (string_of_list_ascii
      (rev (list_ascii_of_string s)))))).

(** [Config.get_full_url] *)
Definition get_full_url (cfg : Config) (endpoint : string) : string :=
  let endpoint := lstrip_slash endpoint in
  let api_prefix := rstrip_slash (lstrip_slash (api_prefix cfg)) in
  base_url cfg ++ "/" ++ api_prefix ++ "/" ++ endpoint.

(** ** [TokenManager]

    Both slots hold whatever was stored ([JNull] is [None]).  The fields
    [_token_expires_at] and [_user_info] are only ever cleared and are not
    modelled. *)
Record token_manager : Type := mk_tm {
  tm_token : pyval;
  tm_refresh : pyval
}.

(** [TokenManager.set_tokens] *)
Definition set_tokens (token refresh_token : pyval) (_ : token_manager) : token_manager :=
  mk_tm token refresh_token.

(** [TokenManager.clear_tokens] *)
Definition clear_tokens (_ : token_manager) : token_manager := mk_tm JNull JNull.

(** ** HTTP exchanges *)
Record response : Type := mk_response {
  status : Z;
  json_body : option pyval   (** [None]: [response.json()] fails *)
}.

(** What the network answers to one request: a response, or a failure of
    the HTTP library. *)
Inductive netresult : Type :=
| NetResp (r : response)
| NetFail (msg : string).

(** A header value: the caller's own text, or the value built by
    [format_auth_header], the string [f"{prefix} {token}"], kept as its two
    parts. *)
Inductive hdr_value : Type :=
| HText (s : string)
| HAuth (prefix : string) (token : pyval).

(** [utils.format_auth_header] *)
Definition format_auth_header (token : pyval) (prefix : string) : hdr_value :=
  HAuth prefix token.

(** [headers[key] = value] on a dict kept in insertion order. *)
Fixpoint dict_set {V : Type} (key : string) (v : V) (d : list (string * V))
    : list (string * V) :=
  match d with
  | [] => [(key, v)]
  | (k, w) :: rest =>
      if String.eqb k key then (k, v) :: rest else (k, w) :: dict_set key v rest
  end.

Record request : Type := mk_request {
  req_method : string;
  req_url : string;
  req_headers : list (string * hdr_value);
  req_json : option pyval;
  req_kwargs : list (string * string)   (** the caller's other [**kwargs] *)
}.

(** Which method of the client issued a network call. *)
Inductive call_site : Type := CallLogin | CallRefresh | CallValidate | CallApi.

Record event : Type := mk_event {
  ev_site : call_site;
  ev_request : request;
  ev_result : netresult
}.

(** ** The client monad

    A client state is the token manager together with the network's
    answers to the next requests, in order (an exhausted script answers
    with a failure).  A computation returns its outcome, the new state and
    the network calls it made, in order. *)
Record session : Type := mk_session {
  tm : token_manager;
  net : list netresult
}.

Definition M (A : Type) : Type := session -> outcome A * session * list event.

Definition ret {A} (a : A) : M A := fun s => (Ok a, s, []).

Definition raise {A} (e : exn) : M A := fun s => (Raise e, s, []).

Definition bind {A B} (m : M A) (k : A -> M B) : M B :=
  fun s =>
    match m s with
    | (Ok a, s1, l1) => let '(r, s2, l2) := k a s1 in (r, s2, (l1 ++ l2)%list)
    | (Raise e, s1, l1) => (Raise e, s1, l1)
    end.

Notation "x <- m ;; k" := (bind m (fun x => k))
  (at level 61, m at next level, right associativity).

(** [try: m except ...]: [h e = Some k] when a clause catches [e] and runs
    [k]; state changes made by [m] before raising are kept. *)
Definition catch {A} (m : M A) (h : exn -> option (M A)) : M A :=
  fun s =>
    match m s with
    | (Raise e, s1, l1) =>
        match h e with
        | Some k => let '(r, s2, l2) := k s1 in (r, s2, (l1 ++ l2)%list)
        | None => (Raise e, s1, l1)
        end
    | res => res
    end.

Definition lift {A} (o : outcome A) : M A := fun s => (o, s, []).

Definition gets {A} (f : token_manager -> A) : M A := fun s => (Ok (f (tm s)), s, []).

Definition modify (f : token_manager -> token_manager) : M unit :=
  fun s => (Ok tt, mk_session (f (tm s)) (net s), []).

(** One network call.  Its answer is a status and a decoded body, or a
    transport failure caught by the client's handler.  Runs the handlers do
    not catch are outside this model.  In the non-blocking client these
    are a total timeout, which raises [asyncio.TimeoutError] (not an
    [aiohttp.ClientError]), and a failure while reading the body with
    [await response.text()] on an error status.  The statements about a
    single client that rest on these answers are made for the blocking
    client. *)
Definition http (site : call_site) (req : request) : M response :=
  fun s =>
    let '(nr, rest) :=
      match net s with
      | [] => (NetFail "no response", [])
      | nr :: rest => (nr, rest)
      end in
    (match nr with NetResp r => Ok r | NetFail m => Raise (TransportError m) end,
     mk_session (tm s) rest,
     [mk_event site req nr]).

(** ** Blocking and non-blocking clients *)
Inductive mode : Type := Blocking | NonBlocking.

(** The exceptions caught by [except requests.RequestException] (blocking)
    or [except aiohttp.ClientError] (non-blocking).  [response.json()] on a
    non-JSON body raises [requests.JSONDecodeError], a [RequestException],
    in the blocking client, and [json.JSONDecodeError], not a
    [ClientError], in the non-blocking one. *)
Definition is_transport_exn (md : mode) (e : exn) : bool :=
  match e with
  | TransportError _ => true
  | JSONDecodeError => match md with Blocking => true | NonBlocking => false end
  | _ => false
  end.

Definition exn_str (e : exn) : string :=
  match e with
  | AuthenticationError m | APIError m _ | TokenValidationError m
  | TransportError m => m
  | JSONDecodeError => "Expecting value"
  | AttributeError => "AttributeError"
  | TypeError => "TypeError"
  | Base64Error => "Incorrect padding"
  | OverflowError => "int too large to convert to float"
  end.

(** [except <transport error> as e: raise APIError(prefix + str(e))] *)
Definition catch_transport {A} (md : mode) (prefix : string) (m : M A) : M A :=
  catch m (fun e => if is_transport_exn md e
                    then Some (raise (APIError (prefix ++ exn_str e) None))
                    else None).

(** [response.json()] *)
Definition response_json (r : response) : M pyval :=
  match json_body r with
  | Some v => ret v
  | None => raise JSONDecodeError
  end.

Definition json_headers : list (string * hdr_value) :=
  [("Content-Type", HText "application/json")].

Section Client.

Variable urlsafe_b64decode : string -> option string.
Variable json_loads : string -> option pyval.
Variable md : mode.
Variable cfg : Config.

(** [TokenManager.is_token_expired] at clock reading [now] *)
Definition tm_is_token_expired (now : Q) (t : token_manager) : bool :=
  if negb (truthy (tm_token t)) then true
  else is_token_expired urlsafe_b64decode json_loads (tm_token t)
         (token_expiry_buffer cfg) now.

(** [AuthClient.authenticate] / [AsyncAuthClient.authenticate] *)
Definition authenticate (username password : string) : M pyval :=
  let url := get_full_url cfg (login_endpoint cfg) in
  let payload := JObj [("username", JStr username); ("password", JStr password)] in
  catch_transport md "Failed to authenticate: " (
    response <- http CallLogin (mk_request "POST" url json_headers (Some payload) []) ;;
    if Z.eqb (status response) 200 then
      data <- response_json response ;;
      token <- lift (py_get data "token") ;;
      refresh_token <- lift (py_get data "refreshToken") ;;
      if negb (truthy token) then raise (AuthenticationError "No token received in response")
      else
        _ <- modify (set_tokens token refresh_token) ;;
        ret token
    else if Z.eqb (status response) 401 then
      raise (AuthenticationError "Invalid username or password")
    else
      raise (APIError "Authentication failed with status" (Some (status response)))).

(** [AuthClient.refresh_token] / [AsyncAuthClient.refresh_token] *)
Definition refresh_token : M pyval :=
  rt <- gets tm_refresh ;;
  if negb (truthy rt) then raise (AuthenticationError "No refresh token available")
  else
    let url := get_full_url cfg (refresh_endpoint cfg) in
    let payload := JObj [("refreshToken", rt)] in
    catch_transport md "Failed to refresh token: " (
      response <- http CallRefresh (mk_request "POST" url json_headers (Some payload) []) ;;
      if Z.eqb (status response) 200 then
        data <- response_json response ;;
        token <- lift (py_get data "token") ;;
        current <- gets tm_refresh ;;
        refresh_token <- lift (py_get_default data "refreshToken" current) ;;
        if negb (truthy token) then
          raise (AuthenticationError "No token received in refresh response")
        else
          _ <- modify (set_tokens token refresh_token) ;;
          ret token
      else if Z.eqb (status response) 401 then
        raise (AuthenticationError "Refresh token expired or invalid")
      else
        raise (APIError "Token refresh failed with status" (Some (status response)))).

(** [AuthClient.ensure_valid_token] / [AsyncAuthClient.ensure_valid_token] *)
Definition ensure_valid_token (now : Q) : M pyval :=
  t <- gets tm_token ;;
  if negb (truthy t) then raise (AuthenticationError "No token available")
  else
    expired <- gets (tm_is_token_expired now) ;;
    if negb expired then gets tm_token
    else
      catch refresh_token
        (fun e => match e with
                  | AuthenticationError _ =>
                      Some (raise (AuthenticationError "Token expired and refresh failed"))
                  | _ => None
                  end).

(** [AuthClient.make_authenticated_request] /
    [AsyncAuthClient.make_authenticated_request]; [headers] is what
    [kwargs.pop('headers', {})] returns, [kwargs] the remaining options. *)
Definition make_authenticated_request (now : Q) (method endpoint : string)
    (headers : list (string * hdr_value)) (kwargs : list (string * string))
    : M response :=
  token <- ensure_valid_token now ;;
  let url := get_full_url cfg endpoint in
  let headers := dict_set (token_header cfg) (format_auth_header token (token_prefix cfg)) headers in
  catch_transport md "API request failed: " (
    response <- http CallApi (mk_request method url headers None kwargs) ;;
    if Z.eqb (status response) 401 then
      catch
        (token <- refresh_token ;;
         let headers := dict_set (token_header cfg)
                          (format_auth_header token (token_prefix cfg)) headers in
         http CallApi (mk_request method url headers None kwargs))
        (fun e => match e with
                  | AuthenticationError _ => Some (raise (AuthenticationError "Authentication expired"))
                  | _ => None
                  end)
    else ret response).

End Client.

Definition default_config : Config :=
  mk_config "http://localhost:3001" "/api" "/auth/login" "/auth/refresh"
    "/auth/validate" "Authorization" "Bearer" 300.

Definition call_site_eqb (a b : call_site) : bool :=
  match a, b with
  | CallLogin, CallLogin | CallRefresh, CallRefresh
  | CallValidate, CallValidate | CallApi, CallApi => true
  | _, _ => false
  end.

(** The number of network calls in [log] made by [site]. *)
Definition count_site (site : call_site) (log : list event) : nat :=
  length (filter (fun e => call_site_eqb (ev_site e) site) log).

Definition res_of {A} (x : outcome A * session * list event) : outcome A := fst (fst x).
Definition state_of {A} (x : outcome A * session * list event) : session := snd (fst x).
Definition log_of {A} (x : outcome A * session * list event) : list event := snd x.

Definition ok200 (body : pyval) : netresult := NetResp (mk_response 200 (Some body)).
Definition status_only (c : Z) : netresult := NetResp (mk_response c None).

Definition is_auth_error {A} (o : outcome A) : Prop :=
  exists msg, o = Raise (AuthenticationError msg).

(** ** Further client operations *)

Section Validation.

Variable urlsafe_b64decode : string -> option string.
Variable json_loads : string -> option pyval.
Variable md : mode.
Variable cfg : Config.

(** [TokenManager.is_authenticated] at clock reading [now]:
    [self._token is not None and not self.is_token_expired]. *)
Definition tm_is_authenticated (now : Q) (t : token_manager) : bool :=
  match tm_token t with
  | JNull => false
  | _ => negb (tm_is_token_expired urlsafe_b64decode json_loads cfg now t)
  end.

(** [AuthClient.validate_token] / [AsyncAuthClient.validate_token];
    [token] is the argument ([JNull] when omitted).  The status code and
    body text appended to the message of the [TokenValidationError] for an
    unexpected status are not modelled. *)
Definition validate_token (token : pyval) : M bool :=
  stored <- gets tm_token ;;
  let check_token := if truthy token then token else stored in
  if negb (truthy check_token) then ret false
  else
    let url := get_full_url cfg (validate_endpoint cfg) in
    let headers := [(token_header cfg, format_auth_header check_token (token_prefix cfg))] in
    catch
      (response <- http CallValidate (mk_request "GET" url headers None []) ;;
       if Z.eqb (status response) 200 then ret true
       else if Z.eqb (status response) 401 then ret false
       else raise (TokenValidationError "Token validation failed with status"))
      (fun e => if is_transport_exn md e
                then Some (raise (TokenValidationError ("Failed to validate token: " ++ exn_str e)))
                else None).

End Validation.

(** [d.get(k)] on a dict kept as its items in insertion order. *)
Fixpoint assoc_get {V : Type} (d : list (string * V)) (k : string) : option V :=
  match d with
  | [] => None
  | (k', v) :: rest => if String.eqb k' k then Some v else assoc_get rest k
  end.

(** ** [config.Config] validators *)

Inductive config_error : Type := ConfigurationError (msg : string).

(** [Config.validate_base_url] *)
Definition validate_base_url (v : string) : string + config_error :=
  if String.prefix "http://" v || String.prefix "https://" v then inl (rstrip_slash v)
  else inr (ConfigurationError "base_url must start with http:// or https://").

(** ** Helpers of [utils.py]

    A Python [str] is a sequence of code points; these functions are
    modelled on strings whose code points are below 256 (one [ascii] each). *)

(** [s[:n]]: a negative [n] counts from the end. *)
Definition py_slice_to (s : string) (n : Z) : string :=
  let stop := if (n <? 0)%Z then (Z.of_nat (String.length s) + n)%Z else n in
  substring 0 (Z.to_nat stop) s.

(** [c * n]: empty for [n <= 0]. *)
Definition py_repeat (c : ascii) (n : Z) : string := repeat_char c (Z.to_nat n).

(** [utils.mask_token] *)
Definition mask_token (token : string) (visible_chars : Z) : string :=
  if String.eqb token EmptyString then EmptyString
  else if (Z.of_nat (String.length token) <=? visible_chars)%Z then
    py_repeat "*" (Z.of_nat (String.length token))
  else py_slice_to token visible_chars ++
       py_repeat "*" (Z.of_nat (String.length token) - visible_chars).

(** [utils.retry_with_backoff] (one call of the wrapper it returns) and
    [utils.async_retry_with_backoff], which run the same loop.  [func i] is
    the outcome of the [i]-th call of [func], counting from [0]; the
    delays, floats in Python, are exact rationals here.  The result is the
    outcome, the number of calls of [func] and the delays slept, in order.
    [attempt] runs over [range(max_retries + 1)]; [fuel] is the number of
    iterations left.  A sleep always succeeds here, but [time.sleep] raises
    [ValueError] on a negative delay.  So only runs that sleep no negative
    delay are faithful for the blocking wrapper. *)
Fixpoint retry_loop (func : nat -> outcome pyval) (max_retries : Z) (backoff : Q)
    (current_delay : Q) (attempt : nat) (fuel : nat) : outcome pyval * nat * list Q :=
  match fuel with
  | O => (Ok JNull, attempt, [])
  | S fuel =>
      match func attempt with
      | Ok v => (Ok v, S attempt, [])
      | Raise e =>
          if Z.eqb (Z.of_nat attempt) max_retries then (Raise e, S attempt, [])
          else
            let '(r, n, sleeps) :=
              retry_loop func max_retries backoff (current_delay * backoff) (S attempt) fuel in
            (r, n, current_delay :: sleeps)
      end
  end.

Definition retry_with_backoff (func : nat -> outcome pyval) (max_retries : Z)
    (delay backoff : Q) : outcome pyval * nat * list Q :=
  retry_loop func max_retries backoff delay 0 (Z.to_nat (max_retries + 1)).

(** [str.isspace] on code points below 256. *)
Definition is_py_space (c : ascii) : bool :=
  let n := nat_of_ascii c in
  (Nat.leb 9 n && Nat.leb n 13) || (Nat.leb 28 n && Nat.leb n 32) ||
  Nat.eqb n 133 || Nat.eqb n 160.

Fixpoint lstrip_space (s : string) : string :=
  match s with
  | String c rest => if is_py_space c then lstrip_space rest else s
  | EmptyString => EmptyString
  end.

(** [s.strip()] *)
Definition py_strip (s : string) : string :=
  string_of_list_ascii
    (rev (list_ascii_of_string (lstrip_space (string_of_list_ascii
      (rev (list_ascii_of_string (lstrip_space s))))))).

(** [s.replace(c, r)] for a one-character [c]. *)
Fixpoint replace_char (c : ascii) (r : string) (s : string) : string :=
  match s with
  | EmptyString => EmptyString
  | String a rest =>
      if Ascii.eqb a c then r ++ replace_char c r rest
      else String a (replace_char c r rest)
  end.

Definition squote : ascii := ascii_of_nat 39.

(** [html.escape(s)] (with [quote=True]), the replacements in its order. *)
Definition html_escape (s : string) : string :=
  let s := replace_char "&" "&amp;" s in
  let s := replace_char "<" "&lt;" s in
  let s := replace_char ">" "&gt;" s in
  let s := replace_char dquote "&quot;" s in
  replace_char squote "&#x27;" s.

(** [utils.sanitize_input] on a string argument. *)
Definition sanitize_input (value : string) : string := html_escape (py_strip value).

(** [needle in hay] *)
Fixpoint contains (needle hay : string) : bool :=
  String.prefix needle hay ||
  match hay with
  | EmptyString => false
  | String _ rest => contains needle rest
  end.

(** [str.lower] on the ASCII letters.  [contains "docker" (lower_ascii s)]
    is [docker in s.lower()]: lowering a code point below 256 outside
    [A-Z] never yields an ASCII letter. *)
Definition lower_ascii (s : string) : string :=
  string_of_list_ascii
    (map (fun c => let n := nat_of_ascii c in
                   if Nat.leb 65 n && Nat.leb n 90 then ascii_of_nat (n + 32) else c)
         (list_ascii_of_string s)).

(** What the health endpoint [base_url/api/health] answered: its status,
    its decoded JSON body ([None]: the body does not decode) and
    [response.headers.get('Server')]; or a failure of the HTTP library. *)
Record health_response : Type := mk_health {
  h_status : Z;
  h_json : option pyval;
  h_server : option string
}.

Inductive health_result : Type :=
| HealthResp (r : health_response)
| HealthFail (msg : string).

(** What the detectors raise: [InstanceDetectionError], or an exception
    that escapes their handler. *)
Inductive detect_exn : Type :=
| InstanceDetectionError (msg : string)
| DetectUncaught (e : exn).

Inductive detect_result : Type :=
| Detected (kind : string)
| DetectRaise (e : detect_exn).

(** [data.get('environment') == name] *)
Definition env_is (env : pyval) (name : string) : bool :=
  match env with JStr s => String.eqb s name | _ => false end.

(** The fallback on URL patterns shared by both detectors. *)
Definition url_fallback (base_url : string) : string :=
  if contains "localhost" base_url || contains "127.0.0.1" base_url then
    if contains ":3001" base_url then "docker"
    else if contains ":3000" base_url then "desktop"
    else "unknown"
  else "unknown".

Definition server_header (r : health_response) : string :=
  lower_ascii (match h_server r with Some s => s | None => EmptyString end).

Definition detect_failure (m : string) : detect_result :=
  DetectRaise (InstanceDetectionError ("Failed to detect instance type: " ++ m)).

(** [utils.detect_instance_type]: [except requests.RequestException], which
    covers a body that does not decode as JSON.  [hr] is the answer of
    [requests.get] under the caller's [timeout].  Two exceptions are not
    modelled: the [ValueError] that a negative timeout raises before any
    request is sent, and a [RecursionError] while decoding a deeply nested
    body. *)
Definition detect_instance_type (base_url : string) (hr : health_result) : detect_result :=
  match hr with
  | HealthFail m => detect_failure m
  | HealthResp r =>
      if Z.eqb (h_status r) 200 then
        match h_json r with
        | None => detect_failure (exn_str JSONDecodeError)
        | Some data =>
            match py_get data "environment" with
            | Raise e => DetectRaise (DetectUncaught e)
            | Ok env =>
                if env_is env "docker" then Detected "docker"
                else if env_is env "desktop" then Detected "desktop"
                else if contains "docker" (server_header r) then Detected "docker"
                else if contains ":3001" base_url then Detected "docker"
                else if contains ":3000" base_url then Detected "desktop"
                else Detected (url_fallback base_url)
            end
        end
      else Detected (url_fallback base_url)
  end.

(** [utils.async_detect]: [except Exception]. *)
Definition async_detect (base_url : string) (hr : health_result) : detect_result :=
  match hr with
  | HealthFail m => detect_failure m
  | HealthResp r =>
      if Z.eqb (h_status r) 200 then
        match h_json r with
        | None => detect_failure (exn_str JSONDecodeError)
        | Some data =>
            match py_get data "environment" with
            | Raise e => detect_failure (exn_str e)
            | Ok env =>
                if env_is env "docker" then Detected "docker"
                else if env_is env "desktop" then Detected "desktop"
                else if contains "docker" (server_header r) then Detected "docker"
                else Detected (url_fallback base_url)
            end
        end
      else Detected (url_fallback base_url)
  end.

Ltac run_client :=
  repeat (unfold authenticate, refresh_token, ensure_valid_token,
            make_authenticated_request, catch_transport, catch, bind, ret,
            raise, lift, gets, modify, http, response_json, res_of, state_of,
            log_of in *; cbn in * ).

(** ** Refreshing *)

(** C7: with no refresh value stored (Python [None], or any falsy value),
    [refresh_token] raises [AuthenticationError] at once: no network call,
    and the state, token manager included, is left unchanged. *)
Lemma refresh_token_no_refresh_value (md : mode) (cfg : Config) (s : session) :
  truthy (tm_refresh (tm s)) = false ->
  refresh_token md cfg s = (Raise (AuthenticationError "No refresh token available"), s, []).
Proof.
  intros Hrt. unfold refresh_token, bind, gets, raise. cbn. rewrite Hrt. reflexivity.
Qed.

(** C9: a refresh answered by HTTP 200 with a truthy [token] stores that
    token; the stored refresh value becomes the response's [refreshToken]
    when the body has that member, and is kept unchanged when it does not. *)
Lemma refresh_token_keeps_or_replaces_refresh (md : mode) (cfg : Config)
    (s : session) (r : response) (rest : list netresult)
    (kvs : list (string * pyval)) (tok : pyval) :
  truthy (tm_refresh (tm s)) = true ->
  net s = NetResp r :: rest ->
  status r = 200%Z ->
  json_body r = Some (JObj kvs) ->
  dict_get kvs "token" = Some tok ->
  truthy tok = true ->
  res_of (refresh_token md cfg s) = Ok tok /\
  tm_token (tm (state_of (refresh_token md cfg s))) = tok /\
  tm_refresh (tm (state_of (refresh_token md cfg s))) =
    match dict_get kvs "refreshToken" with
    | Some v => v
    | None => tm_refresh (tm s)
    end.
Proof.
  intros Hrt Hnet Hst Hbody Htok Htr.
  destruct s as [t n]; destruct r as [st body]; cbn in *; subst n st body.
  run_client. rewrite Hrt. cbn. rewrite Htok. cbn. rewrite Htr. cbn.
  destruct (dict_get kvs "refreshToken"); cbn; auto.
Qed.

(** ** Logging in *)

(** C8: [authenticate] answered by HTTP 200 with body
    [{token: abc, refreshToken: def}] stores access value [abc] and refresh
    value [def] and returns [abc]; answered by HTTP 200 with an object that
    has no [token] member, it raises [AuthenticationError] and leaves the
    stored access and refresh values as they were. *)
Lemma authenticate_stores_or_rejects (md : mode) (cfg : Config) (username password : string) :
  (forall (s : session) (rest : list netresult),
     net s = ok200 (JObj [("token", JStr "abc"); ("refreshToken", JStr "def")]) :: rest ->
     res_of (authenticate md cfg username password s) = Ok (JStr "abc") /\
     tm (state_of (authenticate md cfg username password s)) = mk_tm (JStr "abc") (JStr "def")) /\
  (forall (s : session) (r : response) (rest : list netresult) (kvs : list (string * pyval)),
     net s = NetResp r :: rest ->
     status r = 200%Z ->
     json_body r = Some (JObj kvs) ->
     dict_get kvs "token" = None ->
     is_auth_error (res_of (authenticate md cfg username password s)) /\
     tm (state_of (authenticate md cfg username password s)) = tm s).
Proof.
  split.
  - intros [t n] rest Hnet; cbn in *; subst n.
    run_client. auto.
  - intros [t n] [st body] rest kvs Hnet Hst Hbody Htok; cbn in *; subst n st body.
    run_client. rewrite Htok. cbn.
    destruct (dict_get kvs "refreshToken"); cbn;
      (split; [eexists; reflexivity | reflexivity]).
Qed.

(** C10: [authenticate] answered by HTTP 200 with a truthy [token] and no
    [refreshToken] member leaves no refresh value stored ([None]), whatever
    was stored before. *)
Lemma authenticate_drops_refresh_value (md : mode) (cfg : Config) (username password : string)
    (s : session) (r : response) (rest : list netresult)
    (kvs : list (string * pyval)) (tok : pyval) :
  net s = NetResp r :: rest ->
  status r = 200%Z ->
  json_body r = Some (JObj kvs) ->
  dict_get kvs "token" = Some tok ->
  truthy tok = true ->
  dict_get kvs "refreshToken" = None ->
  res_of (authenticate md cfg username password s) = Ok tok /\
  tm (state_of (authenticate md cfg username password s)) = mk_tm tok JNull.
Proof.
  intros Hnet Hst Hbody Htok Htr Hrt.
  destruct s as [t n]; destruct r as [st body]; cbn in *; subst n st body.
  run_client. rewrite Htok, Hrt. cbn. rewrite Htr. cbn. auto.
Qed.

(** ** The expiry oracle *)

Section OracleFacts.

Variable urlsafe_b64decode : string -> option string.
Variable json_loads : string -> option pyval.

Let expired := is_token_expired urlsafe_b64decode json_loads.

(** C4 (as amended): for a three-segment token whose middle segment
    decodes to a JSON object with numeric [exp], the oracle answers [true]
    when [exp] is [0] (falsy, reported expired like a missing one), when
    [buffer_seconds] is too large for a float (the [OverflowError] is
    caught), and otherwise exactly when the float sum of [current_time] and
    [buffer_seconds] (the int rounded to a double, the sum rounded to a
    double, [+inf] / [-inf] on overflow) is [>= exp].  When both roundings
    are exact and [current_time + buffer_seconds >= 0], this is exactly the
    comparison [current_time + buffer_seconds >= exp]. *)
Lemma is_token_expired_numeric_exp (tok h p sg d : string)
    (kvs : list (string * pyval)) (exp : Q) (buffer_seconds : Z) (now : Q) :
  split_on "." tok = [h; p; sg] ->
  urlsafe_b64decode (add_padding p) = Some d ->
  json_loads d = Some (JObj kvs) ->
  dict_get kvs "exp" = Some (JNum exp) ->
  expired (JStr tok) buffer_seconds now =
    (Qeq_bool exp 0 ||
     match round_double (inject_Z buffer_seconds) with
     | PFin b =>
         match round_double (now + b) with
         | PFin x => Qle_bool exp x
         | PInf => true
         | PNInf => false
         end
     | _ => true
     end) /\
  (round_double (inject_Z buffer_seconds) = PFin (inject_Z buffer_seconds) ->
   float_exact (now + inject_Z buffer_seconds) = true ->
   0 <= now + inject_Z buffer_seconds ->
   expired (JStr tok) buffer_seconds now = Qle_bool exp (now + inject_Z buffer_seconds)).
Proof.
  intros Hsplit Hdec Hjs Hexp.
  assert (E : expired (JStr tok) buffer_seconds now =
              (Qeq_bool exp 0 ||
               match round_double (inject_Z buffer_seconds) with
               | PFin b =>
                   match round_double (now + b) with
                   | PFin x => Qle_bool exp x
                   | PInf => true
                   | PNInf => false
                   end
               | _ => true
               end)).
  { unfold expired, is_token_expired, is_token_expired_body.
    rewrite Hsplit. cbn [length Nat.eqb negb nth].
    rewrite Hdec, Hjs. unfold py_get. rewrite Hexp. cbn [truthy].
    destruct (Qeq_bool exp 0); [reflexivity|].
    unfold int_to_float, py_ge, float_add. cbn [negb orb].
    destruct (round_double (inject_Z buffer_seconds)) as [b| |]; [|reflexivity..].
    destruct (round_double (now + b)); reflexivity. }
  split; [exact E|].
  intros Hb Hx Hnn. rewrite E, Hb.
  unfold float_exact in Hx.
  destruct (round_double (now + inject_Z buffer_seconds)) as [x| |]; try discriminate Hx.
  apply Qeq_bool_iff in Hx.
  destruct (Qeq_bool exp 0) eqn:Hz.
  - apply Qeq_bool_iff in Hz. symmetry. apply Qle_bool_iff. rewrite Hz. exact Hnn.
  - cbn [orb].
    destruct (Qle_bool exp x) eqn:H1, (Qle_bool exp (now + inject_Z buffer_seconds)) eqn:H2;
      auto; exfalso.
    + apply Qle_bool_iff in H1. rewrite Hx in H1. apply Qle_bool_iff in H1. congruence.
    + apply Qle_bool_iff in H2. rewrite <- Hx in H2. apply Qle_bool_iff in H2. congruence.
Qed.

(** C5: the oracle fails closed.  It answers [true] (expired) when the
    token does not split into three segments, when the middle segment does
    not base64-decode, when the decoded bytes are not JSON, when the JSON
    is not an object, and when the object has no [exp] claim.  It never
    raises: every exception of its body is turned into [true]. *)
Lemma is_token_expired_fail_closed (tok : string) (buffer_seconds : Z) (now : Q) :
  (length (split_on "." tok) <> 3%nat ->
   expired (JStr tok) buffer_seconds now = true) /\
  (forall h p sg, split_on "." tok = [h; p; sg] ->
   urlsafe_b64decode (add_padding p) = None ->
   expired (JStr tok) buffer_seconds now = true) /\
  (forall h p sg d, split_on "." tok = [h; p; sg] ->
   urlsafe_b64decode (add_padding p) = Some d ->
   json_loads d = None ->
   expired (JStr tok) buffer_seconds now = true) /\
  (forall h p sg d v, split_on "." tok = [h; p; sg] ->
   urlsafe_b64decode (add_padding p) = Some d ->
   json_loads d = Some v ->
   (forall kvs, v <> JObj kvs) ->
   expired (JStr tok) buffer_seconds now = true) /\
  (forall h p sg d kvs, split_on "." tok = [h; p; sg] ->
   urlsafe_b64decode (add_padding p) = Some d ->
   json_loads d = Some (JObj kvs) ->
   dict_get kvs "exp" = None ->
   expired (JStr tok) buffer_seconds now = true) /\
  (forall e, is_token_expired_body urlsafe_b64decode json_loads (JStr tok) buffer_seconds now = Raise e ->
   expired (JStr tok) buffer_seconds now = true).
Proof.
  unfold expired, is_token_expired, is_token_expired_body.
  repeat split.
  - intros Hlen. apply Nat.eqb_neq in Hlen. rewrite Hlen. reflexivity.
  - intros h p sg Hs Hd. rewrite Hs. cbn [length Nat.eqb negb nth]. rewrite Hd. reflexivity.
  - intros h p sg d Hs Hd Hj. rewrite Hs. cbn [length Nat.eqb negb nth].
    rewrite Hd, Hj. reflexivity.
  - intros h p sg d v Hs Hd Hj Hv. rewrite Hs. cbn [length Nat.eqb negb nth].
    rewrite Hd, Hj. destruct v; try reflexivity. exfalso; eapply Hv; reflexivity.
  - intros h p sg d kvs Hs Hd Hj He. rewrite Hs. cbn [length Nat.eqb negb nth].
    rewrite Hd, Hj. unfold py_get. rewrite He. reflexivity.
  - intros e Hr. rewrite Hr. reflexivity.
Qed.

End OracleFacts.

(** C4 fails as stated.  The token [e30.eyJleHAiOjB9.c] has the payload
    [{exp: 0}]; with buffer [-1800000000] at time [1700000000],
    [current_time + buffer_seconds >= exp] is false, yet the oracle answers
    [true].  The token [e30.eyJleHAiOjV9.c] has the payload [{exp: 5}];
    with buffer [-10 ^ 400] the sum is far below [5], yet the oracle
    answers [true]: the buffer does not fit in a float. *)
Lemma is_token_expired_exp_zero_counterexample :
  split_on "." "e30.eyJleHAiOjB9.c" = ["e30"; "eyJleHAiOjB9"; "c"] /\
  option_map json_loads_ascii (b64url_decode (add_padding "eyJleHAiOjB9"))
    = Some (Some (JObj [("exp", JNum 0)])) /\
  Qle_bool 0 (1700000000 + inject_Z (-1800000000)) = false /\
  is_token_expired b64url_decode json_loads_ascii (JStr "e30.eyJleHAiOjB9.c")
    (-1800000000) 1700000000 = true /\
  option_map json_loads_ascii (b64url_decode (add_padding "eyJleHAiOjV9"))
    = Some (Some (JObj [("exp", JNum 5)])) /\
  Qle_bool 5 (1700000000 + inject_Z (- 10 ^ 400)) = false /\
  is_token_expired b64url_decode json_loads_ascii (JStr "e30.eyJleHAiOjV9.c")
    (- 10 ^ 400) 1700000000 = true.
Proof. vm_compute. repeat split. Qed.

(** ** The authenticated-request envelope *)

(** The request [refresh_token] sends for refresh value [rt]. *)
Definition refresh_request (cfg : Config) (rt : pyval) : request :=
  mk_request "POST" (get_full_url cfg (refresh_endpoint cfg)) json_headers
    (Some (JObj [("refreshToken", rt)])) [].

(** The network's answer to the next request. *)
Definition next_result (s : session) : netresult :=
  match net s with [] => NetFail "no response" | nr :: _ => nr end.

Ltac split_matches :=
  repeat (cbn in *;
          match goal with
          | |- context [match ?x with _ => _ end] =>
              lazymatch x with
              | context [match _ with _ => _ end] => fail
              | _ => destruct x eqn:?
              end
          end).

Lemma count_site_app (site : call_site) (l1 l2 : list event) :
  count_site site (l1 ++ l2) = (count_site site l1 + count_site site l2)%nat.
Proof. unfold count_site. rewrite filter_app, length_app. reflexivity. Qed.

Lemma count_site_cons (site : call_site) (e : event) (l : list event) :
  count_site site (e :: l) =
    ((if call_site_eqb (ev_site e) site then 1 else 0) + count_site site l)%nat.
Proof. unfold count_site. cbn. destruct (call_site_eqb (ev_site e) site); reflexivity. Qed.

Lemma count_site_nil (site : call_site) : count_site site [] = 0%nat.
Proof. reflexivity. Qed.

Ltac count_log :=
  repeat (rewrite ?count_site_app, ?count_site_cons, ?count_site_nil; cbn [ev_site call_site_eqb]).

(** [refresh_token] makes one network call, to the refresh endpoint, when
    a refresh value is stored, and none otherwise. *)
Lemma refresh_token_log (md : mode) (cfg : Config) (s : session) :
  log_of (refresh_token md cfg s) =
    if truthy (tm_refresh (tm s))
    then [mk_event CallRefresh (refresh_request cfg (tm_refresh (tm s))) (next_result s)]
    else [].
Proof.
  destruct s as [t n].
  unfold refresh_token, bind, gets, raise. cbn.
  destruct (truthy (tm_refresh t)); [|reflexivity].
  destruct n as [|nr rest]; run_client; split_matches; reflexivity.
Qed.

(** Whatever [refresh_token] raises has already passed its own transport
    handler, so the envelope's transport handler never catches it. *)
Lemma refresh_token_raise_not_transport (md : mode) (cfg : Config) (s : session) (e : exn) :
  res_of (refresh_token md cfg s) = Raise e -> is_transport_exn md e = false.
Proof.
  destruct s as [t n].
  unfold refresh_token, bind, gets, raise. cbn.
  destruct (truthy (tm_refresh t)); [|cbn; intros H; inversion H; reflexivity].
  destruct n as [|nr rest]; run_client; split_matches;
    intros H; inversion H; subst; cbn; auto; destruct md; auto.
Qed.

(** A refresh that succeeds made exactly one network call, to the refresh
    endpoint. *)
Lemma refresh_token_ok_log (md : mode) (cfg : Config) (s s' : session)
    (tok : pyval) (l : list event) :
  refresh_token md cfg s = (Ok tok, s', l) ->
  l = [mk_event CallRefresh (refresh_request cfg (tm_refresh (tm s))) (next_result s)].
Proof.
  intros H. pose proof (refresh_token_log md cfg s) as L. rewrite H in L. cbn in L.
  destruct (truthy (tm_refresh (tm s))) eqn:Ht; [exact L|].
  rewrite refresh_token_no_refresh_value in H by exact Ht. discriminate.
Qed.

Lemma ensure_valid_token_not_expired (dec : string -> option string)
    (js : string -> option pyval) (md : mode) (cfg : Config) (now : Q) (s : session) :
  truthy (tm_token (tm s)) = true ->
  tm_is_token_expired dec js cfg now (tm s) = false ->
  ensure_valid_token dec js md cfg now s = (Ok (tm_token (tm s)), s, []).
Proof.
  intros Ht He. unfold ensure_valid_token, bind, gets. cbn.
  rewrite Ht. cbn. rewrite He. reflexivity.
Qed.

(** [ensure_valid_token] calls no API endpoint and refreshes at most once. *)
Lemma ensure_valid_token_log (dec : string -> option string)
    (js : string -> option pyval) (md : mode) (cfg : Config) (now : Q) (s : session) :
  count_site CallApi (log_of (ensure_valid_token dec js md cfg now s)) = 0%nat /\
  (count_site CallRefresh (log_of (ensure_valid_token dec js md cfg now s)) <= 1)%nat /\
  (tm_is_token_expired dec js cfg now (tm s) = false ->
   log_of (ensure_valid_token dec js md cfg now s) = []).
Proof.
  pose proof (refresh_token_log md cfg s) as L.
  destruct (refresh_token md cfg s) as [[o s'] l] eqn:E. cbn in L.
  unfold ensure_valid_token, bind, gets, raise, catch.
  remember (refresh_token md cfg) as RT eqn:HRT. cbn.
  destruct (truthy (tm_token (tm s))); cbn; [|repeat split; auto].
  destruct (tm_is_token_expired dec js cfg now (tm s)); cbn; [|repeat split; auto].
  rewrite E.
  assert (Hl : count_site CallApi l = 0%nat /\ (count_site CallRefresh l <= 1)%nat).
  { subst l. destruct (truthy (tm_refresh (tm s))); cbn; auto. }
  destruct o as [a|e]; cbn;
    [|destruct e; cbn; rewrite ?app_nil_r];
    destruct Hl; repeat split; auto; intros; discriminate.
Qed.

(** When [ensure_valid_token] hands out a token, its only network call is
    the proactive refresh, made exactly when the stored token is expired. *)
Lemma ensure_valid_token_ok_log (dec : string -> option string)
    (js : string -> option pyval) (md : mode) (cfg : Config) (now : Q) (s s1 : session)
    (tok : pyval) (l1 : list event) :
  ensure_valid_token dec js md cfg now s = (Ok tok, s1, l1) ->
  l1 = if tm_is_token_expired dec js cfg now (tm s)
       then [mk_event CallRefresh (refresh_request cfg (tm_refresh (tm s))) (next_result s)]
       else [].
Proof.
  intros H.
  destruct (refresh_token md cfg s) as [[o s'] l] eqn:E.
  unfold ensure_valid_token, bind, gets, raise, catch in H.
  remember (refresh_token md cfg) as RT eqn:HRT. cbn in H.
  destruct (truthy (tm_token (tm s))); cbn in H; [|discriminate H].
  destruct (tm_is_token_expired dec js cfg now (tm s)); cbn in H.
  - rewrite E in H. destruct o as [a|e].
    + inversion H; subst. exact (refresh_token_ok_log _ _ _ _ _ _ E).
    + destruct e; cbn in H; discriminate H.
  - inversion H; reflexivity.
Qed.

(** The request [make_authenticated_request] sends to the target endpoint
    with bearer value [tok]; [hdrs] are the headers it starts from. *)
Definition api_request (cfg : Config) (method endpoint : string) (tok : pyval)
    (hdrs : list (string * hdr_value)) (kwargs : list (string * string)) : request :=
  mk_request method (get_full_url cfg endpoint)
    (dict_set (token_header cfg) (format_auth_header tok (token_prefix cfg)) hdrs)
    None kwargs.

(** The whole run of the envelope once the first execution came back with
    401: it makes the one reactive refresh, and re-executes the request
    once, with the header rebuilt from the new token, exactly when that
    refresh succeeded; the second answer is returned as it is (a transport
    failure there becomes [APIError]).  A failed refresh surfaces as
    [AuthenticationError] when it was one, and unchanged otherwise. *)
Lemma make_authenticated_request_after_401 (dec : string -> option string)
    (js : string -> option pyval) (md : mode) (cfg : Config) (now : Q)
    (method endpoint : string) (hdrs : list (string * hdr_value))
    (kwargs : list (string * string)) (s s1 s2 : session) (tok : pyval)
    (l1 l2 : list event) (r1 : response) (rest1 : list netresult)
    (o : outcome pyval) :
  ensure_valid_token dec js md cfg now s = (Ok tok, s1, l1) ->
  net s1 = NetResp r1 :: rest1 ->
  status r1 = 401%Z ->
  refresh_token md cfg (mk_session (tm s1) rest1) = (o, s2, l2) ->
  let req1 := api_request cfg method endpoint tok hdrs kwargs in
  make_authenticated_request dec js md cfg now method endpoint hdrs kwargs s =
    match o with
    | Ok tok' =>
        let req2 := api_request cfg method endpoint tok' (req_headers req1) kwargs in
        (match next_result s2 with
         | NetResp r2 => Ok r2
         | NetFail m => Raise (APIError ("API request failed: " ++ m) None)
         end,
         mk_session (tm s2) (tl (net s2)),
         (l1 ++ mk_event CallApi req1 (NetResp r1) :: l2 ++ [mk_event CallApi req2 (next_result s2)])%list)
    | Raise e =>
        (Raise (match e with
                | AuthenticationError _ => AuthenticationError "Authentication expired"
                | _ => e
                end),
         s2, (l1 ++ mk_event CallApi req1 (NetResp r1) :: l2)%list)
    end.
Proof.
  intros Hens Hnet Hst Hrt req1.
  pose proof (refresh_token_raise_not_transport md cfg (mk_session (tm s1) rest1)) as NT.
  rewrite Hrt in NT. cbn in NT.
  unfold make_authenticated_request.
  remember (ensure_valid_token dec js md cfg now) as EV eqn:HEV.
  remember (refresh_token md cfg) as RT eqn:HRT.
  unfold catch_transport, catch, bind, http, ret, raise. cbn.
  rewrite Hens. cbn.
  destruct s1 as [t1 n1]; cbn in Hnet; subst n1.
  destruct r1 as [st b]; cbn in Hst; subst st. cbn in *.
  rewrite Hrt.
  destruct o as [tok'|e].
  - destruct s2 as [t2 n2]; destruct n2 as [|[r2|m] rest2]; cbn;
      rewrite ?app_nil_r, <- ?app_assoc; reflexivity.
  - specialize (NT e eq_refl).
    destruct e; cbn in *; try discriminate NT; rewrite ?NT; cbn; rewrite ?app_nil_r; reflexivity.
Qed.

(** C1 (as amended): when the first execution of the target endpoint
    answers 401 and the reactive refresh succeeds, the request is executed
    exactly twice, the second time with the header rebuilt from the new
    token and as the last network call; exactly one refresh call follows
    the 401, on top of the proactive refresh of [ensure_valid_token]
    before the first execution, which happens exactly when the stored
    token was expired (so one refresh call in all when it was not, two when
    it was); and the second answer, whatever its status, is returned as it
    is.  The network calls are, in order: those of [ensure_valid_token],
    the first execution, the reactive refresh, the second execution. *)
Lemma make_authenticated_request_retry_once (dec : string -> option string)
    (js : string -> option pyval) (md : mode) (cfg : Config) (now : Q)
    (method endpoint : string) (hdrs : list (string * hdr_value))
    (kwargs : list (string * string)) (s s1 s2 : session) (tok tok' : pyval)
    (l1 l2 : list event) (r1 : response) (rest1 : list netresult) :
  ensure_valid_token dec js md cfg now s = (Ok tok, s1, l1) ->
  net s1 = NetResp r1 :: rest1 ->
  status r1 = 401%Z ->
  refresh_token md cfg (mk_session (tm s1) rest1) = (Ok tok', s2, l2) ->
  let run := make_authenticated_request dec js md cfg now method endpoint hdrs kwargs s in
  let req1 := api_request cfg method endpoint tok hdrs kwargs in
  let req2 := api_request cfg method endpoint tok' (req_headers req1) kwargs in
  count_site CallApi (log_of run) = 2%nat /\
  (exists pre, log_of run = (pre ++ [mk_event CallApi req2 (next_result s2)])%list /\
               count_site CallApi pre = 1%nat) /\
  count_site CallRefresh (log_of run) = S (count_site CallRefresh l1) /\
  (count_site CallRefresh l1 <= 1)%nat /\
  (tm_is_token_expired dec js cfg now (tm s) = false ->
   count_site CallRefresh (log_of run) = 1%nat) /\
  (forall r2, next_result s2 = NetResp r2 -> res_of run = Ok r2) /\
  log_of run =
    (l1 ++ [mk_event CallApi req1 (NetResp r1);
            mk_event CallRefresh (refresh_request cfg (tm_refresh (tm s1)))
              (next_result (mk_session (tm s1) rest1));
            mk_event CallApi req2 (next_result s2)])%list /\
  l1 = (if tm_is_token_expired dec js cfg now (tm s)
        then [mk_event CallRefresh (refresh_request cfg (tm_refresh (tm s))) (next_result s)]
        else []) /\
  (tm_is_token_expired dec js cfg now (tm s) = true ->
   count_site CallRefresh (log_of run) = 2%nat).
Proof.
  intros Hens Hnet Hst Hrt run req1 req2.
  pose proof (make_authenticated_request_after_401 dec js md cfg now method endpoint
                hdrs kwargs s s1 s2 tok l1 l2 r1 rest1 (Ok tok') Hens Hnet Hst Hrt) as E.
  cbn zeta in E. subst run. rewrite E. clear E.
  pose proof (refresh_token_ok_log md cfg _ _ _ _ Hrt) as L2. subst l2.
  pose proof (ensure_valid_token_log dec js md cfg now s) as [A [R N]].
  rewrite Hens in A, R, N. cbn [log_of snd] in A, R, N.
  unfold log_of, res_of; cbn [fst snd].
  repeat split.
  - count_log. rewrite A. reflexivity.
  - exists (l1 ++ [mk_event CallApi req1 (NetResp r1);
                  mk_event CallRefresh (refresh_request cfg (tm_refresh (tm s1))) (next_result (mk_session (tm s1) rest1))])%list.
    split.
    + rewrite <- app_assoc. reflexivity.
    + count_log. rewrite A. reflexivity.
  - count_log. lia.
  - exact R.
  - intros Hne. assert (Hl1 : l1 = []) by (apply N; exact Hne). subst l1.
    count_log. reflexivity.
  - intros r2 Hr2. rewrite Hr2. reflexivity.
  - exact (ensure_valid_token_ok_log dec js md cfg now s s1 tok l1 Hens).
  - intros Hx. rewrite (ensure_valid_token_ok_log dec js md cfg now s s1 tok l1 Hens), Hx.
    count_log. reflexivity.
Qed.

(** C2 (as amended): when the first execution answers 401 and the
    reactive refresh fails, the target endpoint is not executed again; an
    [AuthenticationError] of the refresh (no refresh value, 401 from the
    refresh endpoint, 200 without a token) surfaces as
    [AuthenticationError "Authentication expired"], and any other failure
    of the refresh ([APIError] for another status or a transport failure,
    a decoding error) propagates unchanged. *)
Lemma make_authenticated_request_refresh_failure (dec : string -> option string)
    (js : string -> option pyval) (md : mode) (cfg : Config) (now : Q)
    (method endpoint : string) (hdrs : list (string * hdr_value))
    (kwargs : list (string * string)) (s s1 s2 : session) (tok : pyval)
    (l1 l2 : list event) (r1 : response) (rest1 : list netresult) (e : exn) :
  ensure_valid_token dec js md cfg now s = (Ok tok, s1, l1) ->
  net s1 = NetResp r1 :: rest1 ->
  status r1 = 401%Z ->
  refresh_token md cfg (mk_session (tm s1) rest1) = (Raise e, s2, l2) ->
  let run := make_authenticated_request dec js md cfg now method endpoint hdrs kwargs s in
  res_of run = Raise (match e with
                      | AuthenticationError _ => AuthenticationError "Authentication expired"
                      | _ => e
                      end) /\
  count_site CallApi (log_of run) = 1%nat.
Proof.
  intros Hens Hnet Hst Hrt run.
  pose proof (make_authenticated_request_after_401 dec js md cfg now method endpoint
                hdrs kwargs s s1 s2 tok l1 l2 r1 rest1 (Raise e) Hens Hnet Hst Hrt) as E.
  cbn zeta in E. subst run. rewrite E. clear E.
  pose proof (refresh_token_log md cfg (mk_session (tm s1) rest1)) as L2.
  rewrite Hrt in L2. cbn [log_of snd] in L2.
  pose proof (ensure_valid_token_log dec js md cfg now s) as [A _].
  rewrite Hens in A. cbn [log_of snd] in A.
  split; [reflexivity|].
  unfold log_of; cbn [snd]. count_log. rewrite A, L2.
  destruct (truthy _); count_log; reflexivity.
Qed.

(** C6 (code bug): what [ensure_valid_token] does when the stored token
    is truthy but expired per the oracle and the refresh fails.  It raises
    [AuthenticationError "Token expired and refresh failed"] only if the
    refresh raised an [AuthenticationError].  Any other failure of the
    refresh ([APIError], a decoding error) passes through unchanged, though
    the spec and the method's docstring promise [AuthenticationError]
    only. *)
Lemma ensure_valid_token_refresh_failure (dec : string -> option string)
    (js : string -> option pyval) (md : mode) (cfg : Config) (now : Q)
    (s s' : session) (e : exn) (l : list event) :
  truthy (tm_token (tm s)) = true ->
  tm_is_token_expired dec js cfg now (tm s) = true ->
  refresh_token md cfg s = (Raise e, s', l) ->
  ensure_valid_token dec js md cfg now s =
    (Raise (match e with
            | AuthenticationError _ => AuthenticationError "Token expired and refresh failed"
            | _ => e
            end), s', l).
Proof.
  intros Ht He Hr.
  unfold ensure_valid_token, bind, gets, catch, raise.
  remember (refresh_token md cfg) as RT eqn:HRT. cbn.
  rewrite Ht. cbn. rewrite He. cbn. rewrite Hr.
  destruct e; cbn; rewrite ?app_nil_r; reflexivity.
Qed.

(** C3: one call of [make_authenticated_request] makes at most two refresh
    calls.  Its network calls are those of [ensure_valid_token], which
    call no API endpoint and refresh at most once, followed by the rest,
    which starts with the first execution of the request; after that
    first execution comes at most one more refresh, and only when it was
    answered 401. *)
Lemma make_authenticated_request_refresh_bound (dec : string -> option string)
    (js : string -> option pyval) (md : mode) (cfg : Config) (now : Q)
    (method endpoint : string) (hdrs : list (string * hdr_value))
    (kwargs : list (string * string)) (s : session) :
  let run := make_authenticated_request dec js md cfg now method endpoint hdrs kwargs s in
  let pre := log_of (ensure_valid_token dec js md cfg now s) in
  (count_site CallRefresh (log_of run) <= 2)%nat /\
  exists post,
    log_of run = (pre ++ post)%list /\
    count_site CallApi pre = 0%nat /\
    (count_site CallRefresh pre <= 1)%nat /\
    match post with
    | [] => True
    | first :: rest =>
        ev_site first = CallApi /\
        (count_site CallRefresh rest <= 1)%nat /\
        (count_site CallRefresh rest = 1%nat ->
         exists r, ev_result first = NetResp r /\ status r = 401%Z)
    end.
Proof.
  intros run pre.
  enough (H : exists post,
             log_of run = (pre ++ post)%list /\
             count_site CallApi pre = 0%nat /\
             (count_site CallRefresh pre <= 1)%nat /\
             match post with
             | [] => True
             | first :: rest =>
                 ev_site first = CallApi /\
                 (count_site CallRefresh rest <= 1)%nat /\
                 (count_site CallRefresh rest = 1%nat ->
                  exists r, ev_result first = NetResp r /\ status r = 401%Z)
             end).
  { split; [|exact H].
    destruct H as (post & Hl & _ & Hpre & Hpost).
    rewrite Hl, count_site_app.
    destruct post as [|first rest]; [rewrite count_site_nil; lia|].
    destruct Hpost as (Hf & Hr & _).
    rewrite count_site_cons, Hf. cbn [call_site_eqb]. lia. }
  subst run pre.
  pose proof (ensure_valid_token_log dec js md cfg now s) as [A [R _]].
  destruct (ensure_valid_token dec js md cfg now s) as [[o1 s1] l1] eqn:Hens.
  cbn [log_of snd] in A, R |- *.
  destruct o1 as [tok|e].
  2: { exists []. rewrite app_nil_r. repeat split; auto.
       unfold make_authenticated_request.
       remember (ensure_valid_token dec js md cfg now) as EV eqn:HEV.
       unfold bind. rewrite Hens. reflexivity. }
  destruct s1 as [t1 n1].
  destruct n1 as [|[r1|m] rest1] eqn:Hnet.
  3: { exists [mk_event CallApi (api_request cfg method endpoint tok hdrs kwargs) (NetFail m)].
       repeat split; auto.
       - unfold make_authenticated_request.
         remember (ensure_valid_token dec js md cfg now) as EV eqn:HEV.
         remember (refresh_token md cfg) as RT eqn:HRT.
         unfold catch_transport, catch, bind, http, ret, raise. cbn.
         rewrite Hens. cbn. destruct (is_transport_exn md (TransportError m)); reflexivity.
       - intros Hc. discriminate Hc. }
  1: { exists [mk_event CallApi (api_request cfg method endpoint tok hdrs kwargs) (NetFail "no response")].
       repeat split; auto.
       - unfold make_authenticated_request.
         remember (ensure_valid_token dec js md cfg now) as EV eqn:HEV.
         remember (refresh_token md cfg) as RT eqn:HRT.
         unfold catch_transport, catch, bind, http, ret, raise. cbn.
         rewrite Hens. cbn. reflexivity.
       - intros Hc. discriminate Hc. }
  destruct (Z.eqb (status r1) 401) eqn:H401.
  - apply Z.eqb_eq in H401.
    destruct (refresh_token md cfg (mk_session t1 rest1)) as [[o s2] l2] eqn:Hrt.
    pose proof (refresh_token_log md cfg (mk_session t1 rest1)) as L2.
    rewrite Hrt in L2. cbn [log_of snd] in L2.
    assert (C2 : (count_site CallRefresh l2 <= 1)%nat)
      by (rewrite L2; destruct (truthy _); count_log; auto).
    rewrite (make_authenticated_request_after_401 dec js md cfg now method endpoint
               hdrs kwargs s _ s2 tok l1 l2 r1 rest1 o Hens eq_refl H401 Hrt).
    destruct o as [tok'|e]; unfold log_of; cbn [snd]; eexists;
      (split; [reflexivity|]); cbn [ev_site ev_result];
      repeat split; auto; try (count_log; lia); intros _; exists r1; split; auto.
  - exists [mk_event CallApi (api_request cfg method endpoint tok hdrs kwargs) (NetResp r1)].
    repeat split; auto.
    + unfold make_authenticated_request.
      remember (ensure_valid_token dec js md cfg now) as EV eqn:HEV.
      remember (refresh_token md cfg) as RT eqn:HRT.
      unfold catch_transport, catch, bind, http, ret, raise. cbn.
      rewrite Hens. cbn. rewrite H401. reflexivity.
    + intros Hc. discriminate Hc.
Qed.

(** ** Concrete runs *)

(** A token whose payload is [{exp: 1700000000}]. *)
Definition jwt_fresh : string := "e30.eyJleHAiOjE3MDAwMDAwMDB9.c".

Definition jwt_fresh_payload : string :=
  match b64url_decode (add_padding "eyJleHAiOjE3MDAwMDAwMDB9") with
  | Some d => d
  | None => EmptyString
  end.

(** A session holding [jwt_fresh] (not expired at time [1000]) or the
    stale value [old] (not a three-segment token, so expired), both with
    refresh value [r], and the given network answers. *)
Definition sess_fresh (script : list netresult) : session :=
  mk_session (mk_tm (JStr jwt_fresh) (JStr "r")) script.

Definition sess_stale (script : list netresult) : session :=
  mk_session (mk_tm (JStr "old") (JStr "r")) script.

Definition run_request (s : session) : outcome response * session * list event :=
  make_authenticated_request b64url_decode json_loads_ascii Blocking default_config
    1000 "GET" "/v1/workspaces" [] [] s.

Definition ensure_at_1000 (s : session) : outcome pyval * session * list event :=
  ensure_valid_token b64url_decode json_loads_ascii Blocking default_config 1000 s.

Definition script_retry : list netresult :=
  [status_only 401; ok200 (JObj [("token", JStr "t2")]); status_only 200].

Definition refresh_after_first (script : list netresult) : outcome pyval * session * list event :=
  refresh_token Blocking default_config (mk_session (tm (sess_fresh script)) (tl script)).

(** C1 fails as stated: with a stale stored token, a request whose first
    execution answers 401 and whose reactive refresh succeeds makes two
    refresh calls, the proactive one of [ensure_valid_token] and the
    reactive one. *)
Lemma make_authenticated_request_two_refreshes_counterexample :
  map ev_site (log_of (run_request (sess_stale
     [ok200 (JObj [("token", JStr "t1")]); status_only 401;
      ok200 (JObj [("token", JStr "t2")]); status_only 200])))
    = [CallRefresh; CallApi; CallRefresh; CallApi] /\
  map ev_result (log_of (run_request (sess_stale
     [ok200 (JObj [("token", JStr "t1")]); status_only 401;
      ok200 (JObj [("token", JStr "t2")]); status_only 200])))
    = [ok200 (JObj [("token", JStr "t1")]); status_only 401;
       ok200 (JObj [("token", JStr "t2")]); status_only 200] /\
  count_site CallRefresh (log_of (run_request (sess_stale
     [ok200 (JObj [("token", JStr "t1")]); status_only 401;
      ok200 (JObj [("token", JStr "t2")]); status_only 200]))) = 2%nat /\
  res_of (run_request (sess_stale
     [ok200 (JObj [("token", JStr "t1")]); status_only 401;
      ok200 (JObj [("token", JStr "t2")]); status_only 200]))
    = Ok (mk_response 200 None).
Proof. vm_compute. repeat split. Qed.

Lemma make_authenticated_request_retry_once_witness :
  count_site CallApi (log_of (run_request (sess_fresh script_retry))) = 2%nat /\
  count_site CallRefresh (log_of (run_request (sess_fresh script_retry))) = 1%nat /\
  res_of (run_request (sess_fresh script_retry)) = Ok (mk_response 200 None) /\
  count_site CallRefresh (log_of (run_request (sess_stale (ok200 (JObj [("token", JStr "t1")]) :: script_retry)))) = 2%nat.
Proof.
  pose proof (make_authenticated_request_retry_once b64url_decode json_loads_ascii
    Blocking default_config 1000 "GET" "/v1/workspaces" [] []
    (sess_fresh script_retry) (sess_fresh script_retry)
    (state_of (refresh_after_first script_retry)) (JStr jwt_fresh) (JStr "t2")
    [] (log_of (refresh_after_first script_retry)) (mk_response 401 None)
    (tl script_retry)
    ltac:(vm_compute; reflexivity) ltac:(vm_compute; reflexivity)
    ltac:(vm_compute; reflexivity) ltac:(vm_compute; reflexivity)) as H.
  pose proof (make_authenticated_request_retry_once b64url_decode json_loads_ascii
    Blocking default_config 1000 "GET" "/v1/workspaces" [] []
    (sess_stale (ok200 (JObj [("token", JStr "t1")]) :: script_retry))
    (state_of (ensure_at_1000 (sess_stale (ok200 (JObj [("token", JStr "t1")]) :: script_retry))))
    (state_of (refresh_token Blocking default_config
       (mk_session (mk_tm (JStr "t1") (JStr "r")) (tl script_retry))))
    (JStr "t1") (JStr "t2")
    (log_of (ensure_at_1000 (sess_stale (ok200 (JObj [("token", JStr "t1")]) :: script_retry))))
    (log_of (refresh_token Blocking default_config
       (mk_session (mk_tm (JStr "t1") (JStr "r")) (tl script_retry))))
    (mk_response 401 None) (tl script_retry)
    ltac:(vm_compute; reflexivity) ltac:(vm_compute; reflexivity)
    ltac:(vm_compute; reflexivity) ltac:(vm_compute; reflexivity)) as H'.
  cbn zeta in H, H'. destruct H as (Ha & _ & _ & _ & Hne & Hres & _).
  destruct H' as (_ & _ & _ & _ & _ & _ & _ & _ & Htwo).
  split; [exact Ha|split; [|split]].
  - exact (Hne ltac:(vm_compute; reflexivity)).
  - exact (Hres (mk_response 200 None) ltac:(vm_compute; reflexivity)).
  - exact (Htwo ltac:(vm_compute; reflexivity)).
Defined.

(** C2 fails as stated: when the refresh endpoint answers 500, the
    envelope raises the refresh's [APIError], not [AuthenticationError]. *)
Lemma make_authenticated_request_refresh_api_error_counterexample :
  map ev_site (log_of (run_request (sess_fresh [status_only 401; status_only 500])))
    = [CallApi; CallRefresh] /\
  res_of (run_request (sess_fresh [status_only 401; status_only 500]))
    = Raise (APIError "Token refresh failed with status" (Some 500%Z)).
Proof. vm_compute. repeat split. Qed.

Lemma make_authenticated_request_refresh_failure_witness :
  res_of (run_request (sess_fresh [status_only 401; status_only 401]))
    = Raise (AuthenticationError "Authentication expired") /\
  count_site CallApi (log_of (run_request (sess_fresh [status_only 401; status_only 401]))) = 1%nat.
Proof.
  pose proof (make_authenticated_request_refresh_failure b64url_decode json_loads_ascii
    Blocking default_config 1000 "GET" "/v1/workspaces" [] []
    (sess_fresh [status_only 401; status_only 401])
    (sess_fresh [status_only 401; status_only 401])
    (state_of (refresh_after_first [status_only 401; status_only 401]))
    (JStr jwt_fresh) []
    (log_of (refresh_after_first [status_only 401; status_only 401]))
    (mk_response 401 None) [status_only 401]
    (AuthenticationError "Refresh token expired or invalid")
    ltac:(vm_compute; reflexivity) ltac:(vm_compute; reflexivity)
    ltac:(vm_compute; reflexivity) ltac:(vm_compute; reflexivity)) as H.
  cbn zeta in H. exact H.
Defined.

(** C6, the code bug: with a stale stored token and a refresh endpoint
    answering 500, [ensure_valid_token] raises the refresh's [APIError],
    not an [AuthenticationError]. *)
Lemma ensure_valid_token_api_error_counterexample :
  tm_is_token_expired b64url_decode json_loads_ascii default_config 1000
    (tm (sess_stale [status_only 500])) = true /\
  res_of (ensure_at_1000 (sess_stale [status_only 500]))
    = Raise (APIError "Token refresh failed with status" (Some 500%Z)).
Proof. vm_compute. repeat split. Qed.

Lemma ensure_valid_token_refresh_failure_witness :
  res_of (ensure_at_1000 (sess_stale [status_only 401]))
    = Raise (AuthenticationError "Token expired and refresh failed").
Proof.
  pose proof (ensure_valid_token_refresh_failure b64url_decode json_loads_ascii
    Blocking default_config 1000 (sess_stale [status_only 401])
    (state_of (refresh_token Blocking default_config (sess_stale [status_only 401])))
    (AuthenticationError "Refresh token expired or invalid")
    (log_of (refresh_token Blocking default_config (sess_stale [status_only 401])))
    ltac:(vm_compute; reflexivity) ltac:(vm_compute; reflexivity)
    ltac:(vm_compute; reflexivity)) as H.
  unfold ensure_at_1000, res_of. rewrite H. reflexivity.
Defined.

Lemma is_token_expired_numeric_exp_witness :
  is_token_expired b64url_decode json_loads_ascii (JStr jwt_fresh) 300 1000 = false /\
  is_token_expired b64url_decode json_loads_ascii (JStr jwt_fresh) 300 1800000000 = true.
Proof.
  pose proof (is_token_expired_numeric_exp b64url_decode json_loads_ascii jwt_fresh
    "e30" "eyJleHAiOjE3MDAwMDAwMDB9" "c" jwt_fresh_payload
    [("exp", JNum (inject_Z 1700000000))] (inject_Z 1700000000) 300 1000
    ltac:(vm_compute; reflexivity) ltac:(vm_compute; reflexivity)
    ltac:(vm_compute; reflexivity) ltac:(vm_compute; reflexivity)) as [_ H1].
  pose proof (is_token_expired_numeric_exp b64url_decode json_loads_ascii jwt_fresh
    "e30" "eyJleHAiOjE3MDAwMDAwMDB9" "c" jwt_fresh_payload
    [("exp", JNum (inject_Z 1700000000))] (inject_Z 1700000000) 300 1800000000
    ltac:(vm_compute; reflexivity) ltac:(vm_compute; reflexivity)
    ltac:(vm_compute; reflexivity) ltac:(vm_compute; reflexivity)) as [_ H2].
  rewrite (H1 ltac:(vm_compute; reflexivity) ltac:(vm_compute; reflexivity)
              ltac:(apply Qle_bool_iff; vm_compute; reflexivity)).
  rewrite (H2 ltac:(vm_compute; reflexivity) ltac:(vm_compute; reflexivity)
              ltac:(apply Qle_bool_iff; vm_compute; reflexivity)).
  split; vm_compute; reflexivity.
Defined.

Lemma is_token_expired_fail_closed_witness :
  is_token_expired b64url_decode json_loads_ascii (JStr "abc") 300 1000 = true /\
  is_token_expired b64url_decode json_loads_ascii (JStr "a.!!!!.c") 300 1000 = true /\
  is_token_expired b64url_decode json_loads_ascii (JStr "a.YWJj.c") 300 1000 = true /\
  is_token_expired b64url_decode json_loads_ascii (JStr "a.WzFd.c") 300 1000 = true /\
  is_token_expired b64url_decode json_loads_ascii (JStr "a.e30.c") 300 1000 = true.
Proof.
  pose proof (is_token_expired_fail_closed b64url_decode json_loads_ascii "abc" 300 1000)
    as (H1 & _).
  pose proof (is_token_expired_fail_closed b64url_decode json_loads_ascii "a.!!!!.c" 300 1000)
    as (_ & H2 & _).
  pose proof (is_token_expired_fail_closed b64url_decode json_loads_ascii "a.YWJj.c" 300 1000)
    as (_ & _ & H3 & _).
  pose proof (is_token_expired_fail_closed b64url_decode json_loads_ascii "a.WzFd.c" 300 1000)
    as (_ & _ & _ & H4 & _).
  pose proof (is_token_expired_fail_closed b64url_decode json_loads_ascii "a.e30.c" 300 1000)
    as (_ & _ & _ & _ & H5 & _).
  split; [|split; [|split; [|split]]].
  - apply H1. vm_compute. discriminate.
  - apply (H2 "a" "!!!!" "c"); vm_compute; reflexivity.
  - apply (H3 "a" "YWJj" "c" "abc"); vm_compute; reflexivity.
  - apply (H4 "a" "WzFd" "c" (String "[" (String "1" (String "]" EmptyString)))
             (JArr [JNum (inject_Z 1)])); [vm_compute; reflexivity ..|].
    intros kvs Hk. discriminate Hk.
  - apply (H5 "a" "e30" "c" (String "{" (String "}" EmptyString)) []);
      vm_compute; reflexivity.
Defined.

Lemma refresh_token_no_refresh_value_witness :
  refresh_token NonBlocking default_config
    (mk_session (mk_tm (JStr jwt_fresh) JNull) [status_only 200])
  = (Raise (AuthenticationError "No refresh token available"),
     mk_session (mk_tm (JStr jwt_fresh) JNull) [status_only 200], []).
Proof.
  apply refresh_token_no_refresh_value. reflexivity.
Defined.

Lemma authenticate_stores_or_rejects_witness :
  tm (state_of (authenticate Blocking default_config "admin" "secret"
        (mk_session (mk_tm JNull JNull)
           [ok200 (JObj [("token", JStr "abc"); ("refreshToken", JStr "def")])])))
    = mk_tm (JStr "abc") (JStr "def") /\
  tm (state_of (authenticate NonBlocking default_config "admin" "secret"
        (mk_session (mk_tm (JStr "x") (JStr "y")) [ok200 (JObj [])])))
    = mk_tm (JStr "x") (JStr "y").
Proof.
  destruct (authenticate_stores_or_rejects Blocking default_config "admin" "secret") as [H1 _].
  destruct (authenticate_stores_or_rejects NonBlocking default_config "admin" "secret") as [_ H2].
  split.
  - exact (proj2 (H1 (mk_session (mk_tm JNull JNull)
                       [ok200 (JObj [("token", JStr "abc"); ("refreshToken", JStr "def")])])
                     [] eq_refl)).
  - exact (proj2 (H2 (mk_session (mk_tm (JStr "x") (JStr "y")) [ok200 (JObj [])])
                     (mk_response 200 (Some (JObj []))) [] [] eq_refl eq_refl eq_refl eq_refl)).
Defined.

Lemma refresh_token_keeps_or_replaces_refresh_witness :
  tm (state_of (refresh_token Blocking default_config
        (sess_stale [ok200 (JObj [("token", JStr "t2")])])))
    = mk_tm (JStr "t2") (JStr "r").
Proof.
  pose proof (refresh_token_keeps_or_replaces_refresh Blocking default_config
    (sess_stale [ok200 (JObj [("token", JStr "t2")])])
    (mk_response 200 (Some (JObj [("token", JStr "t2")]))) []
    [("token", JStr "t2")] (JStr "t2")
    eq_refl eq_refl eq_refl eq_refl eq_refl eq_refl) as (_ & Ht & Hr).
  destruct (tm (state_of (refresh_token Blocking default_config
              (sess_stale [ok200 (JObj [("token", JStr "t2")])])))) as [a b].
  cbn in Ht, Hr. rewrite Ht, Hr. reflexivity.
Defined.

Lemma authenticate_drops_refresh_value_witness :
  tm (state_of (authenticate Blocking default_config "admin" "secret"
        (sess_stale [ok200 (JObj [("token", JStr "t2")])])))
    = mk_tm (JStr "t2") JNull.
Proof.
  exact (proj2 (authenticate_drops_refresh_value Blocking default_config "admin" "secret"
    (sess_stale [ok200 (JObj [("token", JStr "t2")])])
    (mk_response 200 (Some (JObj [("token", JStr "t2")]))) []
    [("token", JStr "t2")] (JStr "t2")
    eq_refl eq_refl eq_refl eq_refl eq_refl eq_refl)).
Defined.

(** ** Validation, sign-out and the edges of the envelope *)

(** X1: [validate_token] with no truthy argument and no truthy stored token
    answers [False] without any network call and changes nothing. *)
Lemma validate_token_without_token (md : mode) (cfg : Config) (token : pyval) (s : session) :
  truthy token = false ->
  truthy (tm_token (tm s)) = false ->
  validate_token md cfg token s = (Ok false, s, []).
Proof.
  intros Ha Hs. unfold validate_token, bind, gets, ret. cbn.
  rewrite Ha, Hs. reflexivity.
Qed.

(** X2: in the blocking client ([AuthClient]), when the argument or the
    stored token is truthy, [validate_token] makes exactly one call, a GET
    of the validate endpoint whose only header carries the argument when it is
    truthy and the stored token otherwise; it answers [True] on 200,
    [False] on 401, raises [TokenValidationError] on any other status and
    on a transport failure, and leaves the token manager as it was. *)
Lemma validate_token_one_call (cfg : Config) (token : pyval) (s : session) :
  let check := if truthy token then token else tm_token (tm s) in
  truthy check = true ->
  validate_token Blocking cfg token s =
    (match next_result s with
     | NetResp r =>
         if Z.eqb (status r) 200 then Ok true
         else if Z.eqb (status r) 401 then Ok false
         else Raise (TokenValidationError "Token validation failed with status")
     | NetFail m => Raise (TokenValidationError ("Failed to validate token: " ++ m))
     end,
     mk_session (tm s) (tl (net s)),
     [mk_event CallValidate
        (mk_request "GET" (get_full_url cfg (validate_endpoint cfg))
           [(token_header cfg, format_auth_header check (token_prefix cfg))] None [])
        (next_result s)]).
Proof.
  intros check Hc. destruct s as [t n]. unfold check in *. cbn in *.
  unfold validate_token, bind, gets, catch, http, ret, raise. cbn.
  destruct (truthy token); cbn in *; rewrite ?Hc; cbn;
    destruct n as [|[[st b]|m] rest]; cbn; try reflexivity;
    destruct (Z.eqb st 200); try reflexivity; destruct (Z.eqb st 401); reflexivity.
Qed.

(** X4: after [clear_tokens] the manager is not authenticated,
    [validate_token()] answers [False], [refresh_token] and
    [ensure_valid_token] raise [AuthenticationError], and none of them
    makes a network call or changes the state. *)
Lemma clear_tokens_signs_out (dec : string -> option string)
    (js : string -> option pyval) (md : mode) (cfg : Config) (now : Q) (s : session) :
  let s' := mk_session (clear_tokens (tm s)) (net s) in
  tm_is_authenticated dec js cfg now (tm s') = false /\
  validate_token md cfg JNull s' = (Ok false, s', []) /\
  refresh_token md cfg s' = (Raise (AuthenticationError "No refresh token available"), s', []) /\
  ensure_valid_token dec js md cfg now s' = (Raise (AuthenticationError "No token available"), s', []).
Proof.
  intros s'. repeat split; reflexivity.
Qed.

(** X5: when the token manager reports itself authenticated,
    [ensure_valid_token] returns the stored token with no network call and
    no change of state. *)
Lemma ensure_valid_token_when_authenticated (dec : string -> option string)
    (js : string -> option pyval) (md : mode) (cfg : Config) (now : Q) (s : session) :
  tm_is_authenticated dec js cfg now (tm s) = true ->
  ensure_valid_token dec js md cfg now s = (Ok (tm_token (tm s)), s, []).
Proof.
  intros Ha. unfold tm_is_authenticated in Ha.
  assert (He : tm_is_token_expired dec js cfg now (tm s) = false).
  { destruct (tm_token (tm s)); [discriminate|..];
      apply negb_true_iff in Ha; exact Ha. }
  apply ensure_valid_token_not_expired; [|exact He].
  unfold tm_is_token_expired in He.
  destruct (truthy (tm_token (tm s))); [reflexivity | discriminate He].
Qed.

Lemma refresh_token_ok_stores (md : mode) (cfg : Config) (s s' : session)
    (tok : pyval) (l : list event) :
  refresh_token md cfg s = (Ok tok, s', l) -> tm_token (tm s') = tok.
Proof.
  destruct s as [t n].
  unfold refresh_token, bind, gets, raise. cbn.
  destruct (truthy (tm_refresh t)); [|cbn; intros H; discriminate H].
  destruct n as [|nr rest]; run_client; split_matches;
    intros H; inversion H; subst; reflexivity.
Qed.

(** X6: when the stored token has expired and the refresh succeeds,
    [ensure_valid_token] returns the new token, which is now the stored
    one, after exactly one network call, to the refresh endpoint. *)
Lemma ensure_valid_token_refresh_success (dec : string -> option string)
    (js : string -> option pyval) (md : mode) (cfg : Config) (now : Q)
    (s s' : session) (tok : pyval) (l : list event) :
  truthy (tm_token (tm s)) = true ->
  tm_is_token_expired dec js cfg now (tm s) = true ->
  refresh_token md cfg s = (Ok tok, s', l) ->
  ensure_valid_token dec js md cfg now s = (Ok tok, s', l) /\
  tm_token (tm s') = tok /\
  l = [mk_event CallRefresh (refresh_request cfg (tm_refresh (tm s))) (next_result s)].
Proof.
  intros Ht He Hr.
  split; [|split].
  - unfold ensure_valid_token, bind, gets, catch.
    remember (refresh_token md cfg) as RT eqn:HRT. cbn.
    rewrite Ht. cbn. rewrite He. cbn. rewrite Hr. reflexivity.
  - exact (refresh_token_ok_stores md cfg s s' tok l Hr).
  - exact (refresh_token_ok_log md cfg s s' tok l Hr).
Qed.

(** X7: with no truthy token stored, [make_authenticated_request] raises
    [AuthenticationError] before any network call, the state unchanged. *)
Lemma make_authenticated_request_without_token (dec : string -> option string)
    (js : string -> option pyval) (md : mode) (cfg : Config) (now : Q)
    (method endpoint : string) (hdrs : list (string * hdr_value))
    (kwargs : list (string * string)) (s : session) :
  truthy (tm_token (tm s)) = false ->
  make_authenticated_request dec js md cfg now method endpoint hdrs kwargs s =
    (Raise (AuthenticationError "No token available"), s, []).
Proof.
  intros Ht. unfold make_authenticated_request, ensure_valid_token, bind, gets, raise.
  cbn. rewrite Ht. reflexivity.
Qed.

(** When the first execution does not come back with 401 the envelope
    makes no further call: it returns that response, or turns the
    transport failure into [APIError]. *)
Lemma make_authenticated_request_single_call (dec : string -> option string)
    (js : string -> option pyval) (md : mode) (cfg : Config) (now : Q)
    (method endpoint : string) (hdrs : list (string * hdr_value))
    (kwargs : list (string * string)) (s s1 : session) (tok : pyval) (l1 : list event) :
  ensure_valid_token dec js md cfg now s = (Ok tok, s1, l1) ->
  (forall r rest, net s1 = NetResp r :: rest -> status r <> 401%Z) ->
  make_authenticated_request dec js md cfg now method endpoint hdrs kwargs s =
    (match next_result s1 with
     | NetResp r => Ok r
     | NetFail m => Raise (APIError ("API request failed: " ++ m) None)
     end,
     mk_session (tm s1) (tl (net s1)),
     (l1 ++ [mk_event CallApi (api_request cfg method endpoint tok hdrs kwargs) (next_result s1)])%list).
Proof.
  intros Hens Hn.
  unfold make_authenticated_request.
  remember (ensure_valid_token dec js md cfg now) as EV eqn:HEV.
  remember (refresh_token md cfg) as RT eqn:HRT.
  unfold catch_transport, catch, bind, http, ret, raise. cbn.
  rewrite Hens. destruct s1 as [t1 n1]. cbn.
  destruct n1 as [|[r1|m] rest1]; cbn; try reflexivity.
  specialize (Hn r1 rest1 eq_refl).
  destruct (Z.eqb (status r1) 401) eqn:H401; [apply Z.eqb_eq in H401; contradiction|].
  reflexivity.
Qed.

(** X8: in the blocking client ([AuthClient]), when the first execution
    of the target endpoint answers with a status other than 401, the envelope returns that response as it is,
    after exactly one call to the target and no call after it; when it
    fails in transport, the envelope raises [APIError] after that one
    call. *)
Lemma make_authenticated_request_first_answer (dec : string -> option string)
    (js : string -> option pyval) (cfg : Config) (now : Q)
    (method endpoint : string) (hdrs : list (string * hdr_value))
    (kwargs : list (string * string)) (s s1 : session) (tok : pyval) (l1 : list event) :
  ensure_valid_token dec js Blocking cfg now s = (Ok tok, s1, l1) ->
  let req1 := api_request cfg method endpoint tok hdrs kwargs in
  let run := make_authenticated_request dec js Blocking cfg now method endpoint hdrs kwargs s in
  (forall r rest, net s1 = NetResp r :: rest -> status r <> 401%Z ->
     run = (Ok r, mk_session (tm s1) rest, (l1 ++ [mk_event CallApi req1 (NetResp r)])%list)) /\
  (forall m rest, net s1 = NetFail m :: rest ->
     run = (Raise (APIError ("API request failed: " ++ m) None), mk_session (tm s1) rest,
            (l1 ++ [mk_event CallApi req1 (NetFail m)])%list)).
Proof.
  intros Hens req1 run. split.
  - intros r rest Hnet Hst. subst run.
    rewrite (make_authenticated_request_single_call dec js Blocking cfg now method endpoint
               hdrs kwargs s s1 tok l1 Hens).
    + unfold next_result. rewrite Hnet. reflexivity.
    + intros r' rest' H. rewrite Hnet in H. inversion H; subst. exact Hst.
  - intros m rest Hnet. subst run.
    rewrite (make_authenticated_request_single_call dec js Blocking cfg now method endpoint
               hdrs kwargs s s1 tok l1 Hens).
    + unfold next_result. rewrite Hnet. reflexivity.
    + intros r' rest' H. rewrite Hnet in H. discriminate H.
Qed.

Lemma assoc_get_dict_set {V : Type} (key : string) (v : V) (d : list (string * V)) (k : string) :
  assoc_get (dict_set key v d) k = if String.eqb key k then Some v else assoc_get d k.
Proof.
  induction d as [|[k' w] rest IH]; cbn.
  - destruct (String.eqb key k); reflexivity.
  - destruct (String.eqb k' key) eqn:E1.
    + apply String.eqb_eq in E1. subst k'. cbn.
      destruct (String.eqb key k); reflexivity.
    + cbn. rewrite IH.
      destruct (String.eqb k' k) eqn:E2; [|reflexivity].
      apply String.eqb_eq in E2. subst k'.
      destruct (String.eqb key k) eqn:E3; [|reflexivity].
      apply String.eqb_eq in E3. subst key. rewrite String.eqb_refl in E1. discriminate.
Qed.

(** A network call [make_authenticated_request] may make for a request of
    [method] on [endpoint] with the caller's [hdrs] and [kwargs]: a POST of
    a refresh value to the refresh endpoint, or a call of the target URL
    with the caller's method and options, and the caller's headers except
    that [token_header] holds a formatted token.  [req_json] is the [json=]
    argument written at the call site, so [None] says the envelope adds no
    body of its own; a [json=] the caller gives travels in [kwargs]. *)
Definition envelope_call (cfg : Config) (method endpoint : string)
    (hdrs : list (string * hdr_value)) (kwargs : list (string * string)) (e : event) : Prop :=
  (ev_site e = CallRefresh /\ exists rt, ev_request e = refresh_request cfg rt) \/
  (ev_site e = CallApi /\
   req_method (ev_request e) = method /\
   req_url (ev_request e) = get_full_url cfg endpoint /\
   req_json (ev_request e) = None /\
   req_kwargs (ev_request e) = kwargs /\
   (exists tok, assoc_get (req_headers (ev_request e)) (token_header cfg) =
                Some (format_auth_header tok (token_prefix cfg))) /\
   (forall k, k <> token_header cfg ->
      assoc_get (req_headers (ev_request e)) k = assoc_get hdrs k)).

Lemma refresh_token_log_envelope (md : mode) (cfg : Config) (method endpoint : string)
    (hdrs : list (string * hdr_value)) (kwargs : list (string * string)) (s : session) :
  Forall (envelope_call cfg method endpoint hdrs kwargs) (log_of (refresh_token md cfg s)).
Proof.
  rewrite refresh_token_log. destruct (truthy (tm_refresh (tm s))); constructor; [|constructor].
  left. split; [reflexivity | eexists; reflexivity].
Qed.

Lemma ensure_valid_token_log_refresh (dec : string -> option string)
    (js : string -> option pyval) (md : mode) (cfg : Config) (now : Q) (s : session) :
  log_of (ensure_valid_token dec js md cfg now s) = [] \/
  log_of (ensure_valid_token dec js md cfg now s) = log_of (refresh_token md cfg s).
Proof.
  destruct (refresh_token md cfg s) as [[o s'] l] eqn:E.
  unfold ensure_valid_token, bind, gets, raise, catch.
  remember (refresh_token md cfg) as RT eqn:HRT. cbn.
  destruct (truthy (tm_token (tm s))); cbn; [|left; reflexivity].
  destruct (tm_is_token_expired dec js cfg now (tm s)); cbn; [|left; reflexivity].
  rewrite E. right. destruct o as [a|e]; cbn; [reflexivity|].
  destruct e; cbn; rewrite ?app_nil_r; reflexivity.
Qed.

Lemma api_request_envelope (cfg : Config) (method endpoint : string)
    (hdrs : list (string * hdr_value)) (kwargs : list (string * string))
    (tok tok' : pyval) (nr : netresult) :
  envelope_call cfg method endpoint hdrs kwargs
    (mk_event CallApi (api_request cfg method endpoint tok hdrs kwargs) nr) /\
  envelope_call cfg method endpoint hdrs kwargs
    (mk_event CallApi (api_request cfg method endpoint tok'
       (req_headers (api_request cfg method endpoint tok hdrs kwargs)) kwargs) nr).
Proof.
  unfold envelope_call, api_request. cbn.
  split; right; repeat split;
    try (exists tok'; rewrite assoc_get_dict_set, String.eqb_refl; reflexivity);
    try (exists tok; rewrite assoc_get_dict_set, String.eqb_refl; reflexivity);
    intros k Hk; rewrite ?assoc_get_dict_set;
    destruct (String.eqb (token_header cfg) k) eqn:E;
    try (apply String.eqb_eq in E; congruence); reflexivity.
Qed.

(** X9: every network call [make_authenticated_request] makes is either a
    POST of a refresh value to the refresh endpoint or a call of the
    target URL.  A call of the target URL uses the caller's method and
    passes the caller's options ([kwargs]) through unchanged; a [json=]
    body the caller gives is among them, and the envelope adds no JSON body
    of its own.  Its headers are the caller's, with only [token_header] set
    to the formatted token.  The envelope never calls the login or the
    validate endpoint. *)
Lemma make_authenticated_request_calls (dec : string -> option string)
    (js : string -> option pyval) (md : mode) (cfg : Config) (now : Q)
    (method endpoint : string) (hdrs : list (string * hdr_value))
    (kwargs : list (string * string)) (s : session) :
  Forall (envelope_call cfg method endpoint hdrs kwargs)
    (log_of (make_authenticated_request dec js md cfg now method endpoint hdrs kwargs s)).
Proof.
  assert (Hl1 : Forall (envelope_call cfg method endpoint hdrs kwargs)
                  (log_of (ensure_valid_token dec js md cfg now s))).
  { destruct (ensure_valid_token_log_refresh dec js md cfg now s) as [E|E]; rewrite E;
      [constructor | apply refresh_token_log_envelope]. }
  destruct (ensure_valid_token dec js md cfg now s) as [[o1 s1] l1] eqn:Hens.
  cbn [log_of snd] in Hl1.
  destruct o1 as [tok|e].
  2: { unfold make_authenticated_request.
       remember (ensure_valid_token dec js md cfg now) as EV eqn:HEV.
       unfold bind. rewrite Hens. exact Hl1. }
  destruct s1 as [t1 n1].
  assert (Single : (forall r rest, n1 = NetResp r :: rest -> status r <> 401%Z) ->
                   Forall (envelope_call cfg method endpoint hdrs kwargs)
                     (log_of (make_authenticated_request dec js md cfg now method endpoint
                                hdrs kwargs s))).
  { intros Hn.
    rewrite (make_authenticated_request_single_call dec js md cfg now method endpoint
               hdrs kwargs s _ tok l1 Hens Hn).
    unfold log_of; cbn [snd]. apply Forall_app. split; [exact Hl1|].
    constructor; [apply (api_request_envelope cfg method endpoint hdrs kwargs tok tok)|constructor]. }
  destruct n1 as [|[r1|m] rest1] eqn:Hnet;
    [apply Single; intros; discriminate | | apply Single; intros; discriminate].
  destruct (Z.eqb (status r1) 401) eqn:H401.
  2: { apply Single. intros r rest H. inversion H; subst.
       intros E. apply Z.eqb_neq in H401. contradiction. }
  apply Z.eqb_eq in H401.
  destruct (refresh_token md cfg (mk_session t1 rest1)) as [[o s2] l2] eqn:Hrt.
  pose proof (refresh_token_log_envelope md cfg method endpoint hdrs kwargs
                (mk_session t1 rest1)) as Hl2.
  rewrite Hrt in Hl2. cbn [log_of snd] in Hl2.
  rewrite (make_authenticated_request_after_401 dec js md cfg now method endpoint
             hdrs kwargs s _ s2 tok l1 l2 r1 rest1 o Hens eq_refl H401 Hrt).
  destruct o as [tok'|e]; unfold log_of; cbn [snd];
    apply Forall_app; (split; [exact Hl1|]);
    (constructor; [apply (api_request_envelope cfg method endpoint hdrs kwargs tok tok)|]);
    try exact Hl2.
  apply Forall_app. split; [exact Hl2|].
  constructor; [apply (api_request_envelope cfg method endpoint hdrs kwargs tok tok')|constructor].
Qed.

(** The request [authenticate] sends for [username] and [password]. *)
Definition login_request (cfg : Config) (username password : string) : request :=
  mk_request "POST" (get_full_url cfg (login_endpoint cfg)) json_headers
    (Some (JObj [("username", JStr username); ("password", JStr password)])) [].

(** X10: [authenticate] makes exactly one network call, a POST of the
    credentials to the login endpoint, and when it raises, the stored
    access and refresh values are left as they were. *)
Lemma authenticate_one_call_keeps_tokens_on_failure (md : mode) (cfg : Config)
    (username password : string) (s : session) :
  log_of (authenticate md cfg username password s) =
    [mk_event CallLogin (login_request cfg username password) (next_result s)] /\
  forall e, res_of (authenticate md cfg username password s) = Raise e ->
            tm (state_of (authenticate md cfg username password s)) = tm s.
Proof.
  destruct s as [t n].
  destruct n as [|nr rest]; run_client; split_matches;
    (split; [reflexivity | intros e0 H; first [reflexivity | discriminate H]]).
Qed.

(** X11: in the blocking client ([AuthClient]), [authenticate] answered
    by 401 raises [AuthenticationError "Invalid username or password"]; answered by any
    other status but 200 it raises [APIError] carrying that status; a
    transport failure becomes [APIError] with no status. *)
Lemma authenticate_rejections (cfg : Config) (username password : string)
    (s : session) :
  (forall r rest, net s = NetResp r :: rest -> status r <> 200%Z ->
     res_of (authenticate Blocking cfg username password s) =
       Raise (if Z.eqb (status r) 401 then AuthenticationError "Invalid username or password"
              else APIError "Authentication failed with status" (Some (status r)))) /\
  (forall m rest, net s = NetFail m :: rest ->
     res_of (authenticate Blocking cfg username password s) =
       Raise (APIError ("Failed to authenticate: " ++ m) None)).
Proof.
  destruct s as [t n]. split.
  - intros [st b] rest Hn Hst; cbn in *; subst n.
    apply Z.eqb_neq in Hst. run_client. rewrite Hst. cbn.
    destruct (Z.eqb st 401); reflexivity.
  - intros m rest Hn; cbn in *; subst n. run_client. reflexivity.
Qed.

(** X12: when [refresh_token] raises, the stored access and refresh values
    are left as they were. *)
Lemma refresh_token_keeps_tokens_on_failure (md : mode) (cfg : Config) (s : session) (e : exn) :
  res_of (refresh_token md cfg s) = Raise e ->
  tm (state_of (refresh_token md cfg s)) = tm s.
Proof.
  destruct s as [t n].
  unfold refresh_token, bind, gets, raise. cbn.
  destruct (truthy (tm_refresh t)); [|reflexivity].
  destruct n as [|nr rest]; run_client; split_matches;
    intros H; first [reflexivity | discriminate H].
Qed.

(** X13: in the blocking client ([AuthClient]), with a refresh value
    stored, [refresh_token] answered by 401 raises [AuthenticationError "Refresh token expired or invalid"];
    answered by any other status but 200 it raises [APIError] carrying
    that status; a transport failure becomes [APIError] with no status. *)
Lemma refresh_token_rejections (cfg : Config) (s : session) :
  truthy (tm_refresh (tm s)) = true ->
  (forall r rest, net s = NetResp r :: rest -> status r <> 200%Z ->
     res_of (refresh_token Blocking cfg s) =
       Raise (if Z.eqb (status r) 401 then AuthenticationError "Refresh token expired or invalid"
              else APIError "Token refresh failed with status" (Some (status r)))) /\
  (forall m rest, net s = NetFail m :: rest ->
     res_of (refresh_token Blocking cfg s) = Raise (APIError ("Failed to refresh token: " ++ m) None)).
Proof.
  intros Hrt. destruct s as [t n]. cbn in Hrt. split.
  - intros [st b] rest Hn Hst; cbn in *; subst n.
    apply Z.eqb_neq in Hst. run_client. rewrite Hrt. cbn. rewrite Hst. cbn.
    destruct (Z.eqb st 401); reflexivity.
  - intros m rest Hn; cbn in *; subst n. run_client. rewrite Hrt. reflexivity.
Qed.

(** ** URLs *)

Lemma list_ascii_of_string_app (a b : string) :
  list_ascii_of_string (a ++ b) = (list_ascii_of_string a ++ list_ascii_of_string b)%list.
Proof. induction a as [|c a IH]; cbn; [reflexivity | rewrite IH; reflexivity]. Qed.

Lemma list_ascii_of_repeat_char (c : ascii) (n : nat) :
  list_ascii_of_string (repeat_char c n) = repeat c n.
Proof. induction n as [|n IH]; cbn; [reflexivity | rewrite IH; reflexivity]. Qed.

Lemma lstrip_slash_slashes (n : nat) (e : string) :
  lstrip_slash (repeat_char "/" n ++ e) = lstrip_slash e.
Proof. induction n as [|n IH]; cbn; [reflexivity | exact IH]. Qed.

Lemma lstrip_slash_app (p q : string) :
  lstrip_slash (p ++ q) =
    match lstrip_slash p with EmptyString => lstrip_slash q | w => (w ++ q)%string end.
Proof.
  induction p as [|c p IH]; cbn; [reflexivity|].
  destruct (Ascii.eqb c "/"); [exact IH | reflexivity].
Qed.

Lemma lstrip_slash_shape (w : string) :
  (exists n, w = repeat_char "/" n ++ lstrip_slash w) /\
  (forall c rest, lstrip_slash w = String c rest -> c <> "/"%char).
Proof.
  induction w as [|c w [[n IHn] IHh]]; cbn.
  - split; [exists 0%nat; reflexivity | intros c rest H; discriminate H].
  - destruct (Ascii.eqb c "/") eqn:E.
    + apply Ascii.eqb_eq in E. subst c. split; [|exact IHh].
      exists (S n). cbn. rewrite <- IHn. reflexivity.
    + split; [exists 0%nat; reflexivity|].
      intros c' rest H. inversion H; subst. intros Hc. subst c'.
      rewrite Ascii.eqb_refl in E. discriminate.
Qed.

Lemma rstrip_slash_shape (v : string) :
  (exists n, v = rstrip_slash v ++ repeat_char "/" n) /\
  (forall p, rstrip_slash v <> p ++ "/").
Proof.
  set (w := string_of_list_ascii (rev (list_ascii_of_string v))).
  destruct (lstrip_slash_shape w) as [[n Hn] Hh].
  assert (Hv : list_ascii_of_string v =
               (rev (list_ascii_of_string (lstrip_slash w)) ++ repeat "/"%char n)%list).
  { apply (f_equal list_ascii_of_string) in Hn.
    rewrite list_ascii_of_string_app, list_ascii_of_repeat_char in Hn.
    unfold w in Hn at 1. rewrite list_ascii_of_string_of_list_ascii in Hn.
    rewrite <- (rev_involutive (list_ascii_of_string v)), Hn, rev_app_distr, rev_repeat.
    reflexivity. }
  unfold rstrip_slash. fold w. split.
  - exists n. rewrite <- (string_of_list_ascii_of_string v) at 1. rewrite Hv.
    rewrite <- (list_ascii_of_repeat_char "/" n).
    rewrite <- (string_of_list_ascii_of_string (string_of_list_ascii _ ++ repeat_char "/" n)).
    rewrite list_ascii_of_string_app, list_ascii_of_string_of_list_ascii,
      list_ascii_of_repeat_char. reflexivity.
  - intros p Hp. apply (f_equal list_ascii_of_string) in Hp.
    rewrite list_ascii_of_string_of_list_ascii, list_ascii_of_string_app in Hp.
    apply (f_equal (@rev ascii)) in Hp. rewrite rev_involutive, rev_app_distr in Hp.
    cbn in Hp. destruct (lstrip_slash w) as [|c rest] eqn:E; cbn in Hp; [discriminate Hp|].
    inversion Hp; subst. exact (Hh _ rest eq_refl eq_refl).
Qed.

Lemma string_of_list_ascii_app (a b : list ascii) :
  string_of_list_ascii (a ++ b) = (string_of_list_ascii a ++ string_of_list_ascii b)%string.
Proof. induction a as [|c a IH]; cbn; [reflexivity | rewrite IH; reflexivity]. Qed.

Lemma string_of_list_ascii_repeat (c : ascii) (n : nat) :
  string_of_list_ascii (repeat c n) = repeat_char c n.
Proof. induction n as [|n IH]; cbn; [reflexivity | rewrite IH; reflexivity]. Qed.

Lemma rstrip_slash_app_slashes (u : string) (n : nat) :
  rstrip_slash (u ++ repeat_char "/" n) = rstrip_slash u.
Proof.
  unfold rstrip_slash.
  rewrite list_ascii_of_string_app, list_ascii_of_repeat_char, rev_app_distr, rev_repeat.
  rewrite string_of_list_ascii_app, string_of_list_ascii_repeat, lstrip_slash_slashes.
  reflexivity.
Qed.

(** X14: [get_full_url] ignores leading slashes of the endpoint and
    slashes around [api_prefix]: [/x] and [x], [/api/] and [api] give the
    same URL. *)
Lemma get_full_url_ignores_slashes (b p l r v h t : string) (x : Z) (e : string)
    (n n1 n2 : nat) :
  get_full_url (mk_config b (repeat_char "/" n1 ++ p ++ repeat_char "/" n2) l r v h t x)
    (repeat_char "/" n ++ e) =
  get_full_url (mk_config b p l r v h t x) e.
Proof.
  unfold get_full_url. cbn [api_prefix base_url].
  rewrite !lstrip_slash_slashes, lstrip_slash_app.
  destruct (lstrip_slash p) as [|c w] eqn:E.
  - assert (Hs : lstrip_slash (repeat_char "/" n2) = EmptyString)
      by (induction n2 as [|k IH]; cbn; [reflexivity | exact IH]).
    rewrite Hs. reflexivity.
  - rewrite <- E, rstrip_slash_app_slashes. reflexivity.
Qed.

(** X15: [Config.validate_base_url] refuses a value that starts with
    neither [http://] nor [https://]; an accepted value comes back with
    its trailing slashes removed (and nothing else), so the result never
    ends with [/]. *)
Lemma validate_base_url_result (v : string) :
  (String.prefix "http://" v = false -> String.prefix "https://" v = false ->
   validate_base_url v = inr (ConfigurationError "base_url must start with http:// or https://")) /\
  (forall u, validate_base_url v = inl u ->
   (String.prefix "http://" v || String.prefix "https://" v)%bool = true /\
   (exists n, v = u ++ repeat_char "/" n) /\
   (forall p, u <> p ++ "/")).
Proof.
  unfold validate_base_url. split.
  - intros H1 H2. rewrite H1, H2. reflexivity.
  - intros u. destruct (String.prefix "http://" v || String.prefix "https://" v)%bool eqn:E;
      intros H; inversion H; subst.
    destruct (rstrip_slash_shape v) as [Hn Hp]. auto.
Qed.

(** X16: a base URL that is only a scheme followed by slashes, such as
    [http://], is accepted, and comes back as the bare scheme [http:] or
    [https:], without [//]. *)
Lemma validate_base_url_bare_scheme (n : nat) :
  validate_base_url ("http:" ++ repeat_char "/" (S (S n))) = inl "http:" /\
  validate_base_url ("https:" ++ repeat_char "/" (S (S n))) = inl "https:".
Proof.
  unfold validate_base_url. rewrite !rstrip_slash_app_slashes.
  split; destruct n; cbn; reflexivity.
Qed.

(** ** Masking *)

Lemma string_length_app (a b : string) :
  String.length (a ++ b) = (String.length a + String.length b)%nat.
Proof. induction a as [|c a IH]; cbn; [reflexivity | rewrite IH; reflexivity]. Qed.

Lemma repeat_char_length (c : ascii) (n : nat) : String.length (repeat_char c n) = n.
Proof. induction n as [|n IH]; cbn; [reflexivity | rewrite IH; reflexivity]. Qed.

Lemma repeat_char_get (c : ascii) (n i : nat) :
  (i < n)%nat -> String.get i (repeat_char c n) = Some c.
Proof.
  revert i. induction n as [|n IH]; intros i Hi; [lia|].
  destruct i as [|i]; cbn; [reflexivity | apply IH; lia].
Qed.

Lemma substring0_length (m : nat) (s : string) :
  String.length (substring 0 m s) = Nat.min m (String.length s).
Proof.
  revert s. induction m as [|m IH]; intros s; [destruct s; reflexivity|].
  destruct s as [|c s]; cbn; [reflexivity | rewrite IH; reflexivity].
Qed.

Lemma substring0_app (a b : string) : substring 0 (String.length a) (a ++ b) = a.
Proof. induction a as [|c a IH]; cbn; [destruct b; reflexivity | rewrite IH; reflexivity]. Qed.

(** X17: for [visible_chars >= 0], [mask_token] keeps the length of the
    token; it shows the first [visible_chars] characters only when the
    token is longer than that, and every other position is [*]. *)
Lemma mask_token_shape (token : string) (visible_chars : Z) :
  (0 <= visible_chars)%Z ->
  String.length (mask_token token visible_chars) = String.length token /\
  (forall i, (i < String.length token)%nat ->
   String.get i (mask_token token visible_chars) =
     if ((Z.of_nat i <? visible_chars) && (visible_chars <? Z.of_nat (String.length token)))%Z%bool
     then String.get i token else Some "*"%char).
Proof.
  intros Hk. unfold mask_token.
  destruct (String.eqb token EmptyString) eqn:E.
  { apply String.eqb_eq in E. subst token. split; [reflexivity | cbn; intros; lia]. }
  destruct (Z.of_nat (String.length token) <=? visible_chars)%Z eqn:Hle.
  - unfold py_repeat. rewrite Nat2Z.id. split; [apply repeat_char_length|].
    intros i Hi. apply Z.leb_le in Hle.
    replace ((visible_chars <? Z.of_nat (String.length token))%Z) with false
      by (symmetry; apply Z.ltb_ge; lia).
    rewrite andb_false_r. apply repeat_char_get. exact Hi.
  - apply Z.leb_gt in Hle.
    unfold py_slice_to, py_repeat.
    replace ((visible_chars <? 0)%Z) with false by (symmetry; apply Z.ltb_ge; lia).
    set (k := Z.to_nat visible_chars).
    assert (Hkl : (k < String.length token)%nat) by (unfold k; lia).
    assert (Hsl : String.length (substring 0 k token) = k)
      by (rewrite substring0_length; lia).
    replace (Z.to_nat (Z.of_nat (String.length token) - visible_chars))
      with (String.length token - k)%nat by (unfold k; lia).
    split.
    + rewrite string_length_app, Hsl, repeat_char_length. lia.
    + intros i Hi.
      replace ((visible_chars <? Z.of_nat (String.length token))%Z) with true
        by (symmetry; apply Z.ltb_lt; lia).
      rewrite andb_true_r.
      destruct (Z.of_nat i <? visible_chars)%Z eqn:Hik.
      * apply Z.ltb_lt in Hik.
        rewrite <- append_correct1 by (rewrite Hsl; unfold k; lia).
        rewrite substring_correct1 by (unfold k; lia).
        rewrite Nat.add_0_r. reflexivity.
      * apply Z.ltb_ge in Hik.
        replace i with ((i - k) + String.length (substring 0 k token))%nat
          by (rewrite Hsl; unfold k; lia).
        rewrite <- append_correct2. apply repeat_char_get. unfold k in *; lia.
Qed.

(** X18: a negative [visible_chars = -j] with [j] at most the token's
    length does not hide more: the mask shows the first [len - j]
    characters of the token and is twice as long as the token. *)
Lemma mask_token_negative_visible (token : string) (visible_chars : Z) :
  (visible_chars < 0)%Z ->
  (0 <= Z.of_nat (String.length token) + visible_chars)%Z ->
  String.length (mask_token token visible_chars) = (2 * String.length token)%nat /\
  substring 0 (Z.to_nat (Z.of_nat (String.length token) + visible_chars))
    (mask_token token visible_chars) =
  substring 0 (Z.to_nat (Z.of_nat (String.length token) + visible_chars)) token.
Proof.
  intros Hneg Hj. unfold mask_token.
  destruct (String.eqb token EmptyString) eqn:E.
  { apply String.eqb_eq in E. subst token. cbn in Hj. lia. }
  replace ((Z.of_nat (String.length token) <=? visible_chars)%Z) with false
    by (symmetry; apply Z.leb_gt; lia).
  unfold py_slice_to, py_repeat.
  replace ((visible_chars <? 0)%Z) with true by (symmetry; apply Z.ltb_lt; lia).
  set (m := Z.to_nat (Z.of_nat (String.length token) + visible_chars)).
  assert (Hsl : String.length (substring 0 m token) = m)
    by (rewrite substring0_length; unfold m; lia).
  split.
  - rewrite string_length_app, Hsl, repeat_char_length. unfold m. lia.
  - rewrite <- Hsl at 1. apply substring0_app.
Qed.

(** ** Retrying *)

(** X21: with a negative [max_retries] the loop body never runs:
    [retry_with_backoff] returns [None] without calling [func] or
    sleeping. *)
Lemma retry_with_backoff_negative (f : nat -> outcome pyval) (max_retries : Z)
    (delay backoff : Q) :
  (max_retries < 0)%Z ->
  retry_with_backoff f max_retries delay backoff = (Ok JNull, 0%nat, []).
Proof.
  intros Hm. unfold retry_with_backoff.
  replace (Z.to_nat (max_retries + 1)) with 0%nat by lia. reflexivity.
Qed.

(** ** Sanitizing *)

Lemma replace_char_in (c d : ascii) (r s : string) :
  In d (list_ascii_of_string (replace_char c r s)) ->
  In d (list_ascii_of_string r) \/ (In d (list_ascii_of_string s) /\ d <> c).
Proof.
  induction s as [|a s IH]; cbn; [intros []|].
  destruct (Ascii.eqb a c) eqn:E; cbn.
  - rewrite list_ascii_of_string_app. intros H. apply in_app_or in H as [H|H]; [left; exact H|].
    destruct (IH H) as [H'|[H' Hn]]; [left; exact H' | right; split; [right; exact H' | exact Hn]].
  - intros [H|H].
    + subst a. right. split; [left; reflexivity|]. intros Hd. subst d.
      rewrite Ascii.eqb_refl in E. discriminate.
    + destruct (IH H) as [H'|[H' Hn]]; [left; exact H' | right; split; [right; exact H' | exact Hn]].
Qed.

Lemma replace_char_absent (c : ascii) (r s : string) :
  ~ In c (list_ascii_of_string s) -> replace_char c r s = s.
Proof.
  induction s as [|a s IH]; cbn; [reflexivity|].
  intros H. destruct (Ascii.eqb a c) eqn:E.
  - apply Ascii.eqb_eq in E. subst a. exfalso. apply H. left. reflexivity.
  - rewrite IH; [reflexivity|]. intros H'. apply H. right. exact H'.
Qed.

Ltac escape_absent :=
  repeat match goal with
         | H : In _ (list_ascii_of_string (replace_char _ _ _)) |- _ =>
             apply replace_char_in in H; destruct H as [H|[H ?]]
         end;
  try (cbn in *; unfold dquote, squote in *; intuition discriminate).

(** X22: the output of [sanitize_input] never contains [<], [>], a double
    quote or a single quote. *)
Lemma sanitize_input_no_markup (value : string) :
  ~ In "<"%char (list_ascii_of_string (sanitize_input value)) /\
  ~ In ">"%char (list_ascii_of_string (sanitize_input value)) /\
  ~ In dquote (list_ascii_of_string (sanitize_input value)) /\
  ~ In squote (list_ascii_of_string (sanitize_input value)).
Proof.
  unfold sanitize_input, html_escape.
  repeat split; intros H; escape_absent; congruence.
Qed.

Lemma lstrip_space_keep (s : string) :
  match list_ascii_of_string s with [] => True | c :: _ => is_py_space c = false end ->
  lstrip_space s = s.
Proof. destruct s as [|c s]; cbn; [reflexivity | intros H; rewrite H; reflexivity]. Qed.

(** X23: [sanitize_input] leaves unchanged a string with none of [&], [<],
    [>], double or single quotes, and no whitespace at either end. *)
Lemma sanitize_input_plain (value : string) :
  (forall c, In c (list_ascii_of_string value) ->
   c <> "&"%char /\ c <> "<"%char /\ c <> ">"%char /\ c <> dquote /\ c <> squote) ->
  match list_ascii_of_string value with [] => True | c :: _ => is_py_space c = false end ->
  match rev (list_ascii_of_string value) with [] => True | c :: _ => is_py_space c = false end ->
  sanitize_input value = value.
Proof.
  intros Hc Hfirst Hlast.
  assert (Hs : py_strip value = value).
  { unfold py_strip. rewrite (lstrip_space_keep value Hfirst).
    rewrite lstrip_space_keep by (rewrite list_ascii_of_string_of_list_ascii; exact Hlast).
    rewrite list_ascii_of_string_of_list_ascii, rev_involutive, string_of_list_ascii_of_string.
    reflexivity. }
  unfold sanitize_input, html_escape. rewrite Hs.
  assert (Ha : forall d, (d = "&"%char \/ d = "<"%char \/ d = ">"%char \/ d = dquote \/ d = squote) ->
                ~ In d (list_ascii_of_string value)).
  { intros d Hd H. apply Hc in H. intuition congruence. }
  rewrite (replace_char_absent "&" _ value) by (apply Ha; auto).
  rewrite (replace_char_absent "<" _ value) by (apply Ha; auto).
  rewrite (replace_char_absent ">" _ value) by (apply Ha; auto).
  rewrite (replace_char_absent dquote _ value) by (apply Ha; auto).
  rewrite (replace_char_absent squote _ value) by (apply Ha; auto).
  reflexivity.
Qed.

(** ** Instance detection *)

(** X24: when the health endpoint answers with a status other than 200,
    both detectors decide on the base URL alone: [docker] for a
    [localhost] or [127.0.0.1] URL containing [:3001], [desktop] for one
    containing [:3000], [unknown] otherwise. *)
Lemma detect_non_200 (base_url : string) (r : health_response) :
  h_status r <> 200%Z ->
  detect_instance_type base_url (HealthResp r) = Detected (url_fallback base_url) /\
  async_detect base_url (HealthResp r) = Detected (url_fallback base_url).
Proof.
  intros Hs. apply Z.eqb_neq in Hs.
  unfold detect_instance_type, async_detect. rewrite Hs. split; reflexivity.
Qed.

(** X25: on a 200 answer whose body is a JSON object, both detectors
    answer [docker] or [desktop] when its [environment] member says so,
    and otherwise [docker] when the [Server] header contains [docker]
    (in any case).  Failing all three, the blocking detector answers
    [docker] for any URL containing [:3001] and [desktop] for one
    containing [:3000] before falling back on the URL patterns, while the
    non-blocking one goes straight to that fallback. *)
Lemma detect_health_object (base_url : string) (r : health_response)
    (kvs : list (string * pyval)) :
  h_status r = 200%Z ->
  h_json r = Some (JObj kvs) ->
  let env := match dict_get kvs "environment" with Some v => v | None => JNull end in
  let hr := HealthResp r in
  (env_is env "docker" = true ->
   detect_instance_type base_url hr = Detected "docker" /\
   async_detect base_url hr = Detected "docker") /\
  (env_is env "docker" = false -> env_is env "desktop" = true ->
   detect_instance_type base_url hr = Detected "desktop" /\
   async_detect base_url hr = Detected "desktop") /\
  (env_is env "docker" = false -> env_is env "desktop" = false ->
   contains "docker" (server_header r) = true ->
   detect_instance_type base_url hr = Detected "docker" /\
   async_detect base_url hr = Detected "docker") /\
  (env_is env "docker" = false -> env_is env "desktop" = false ->
   contains "docker" (server_header r) = false ->
   detect_instance_type base_url hr =
     Detected (if contains ":3001" base_url then "docker"
               else if contains ":3000" base_url then "desktop"
               else url_fallback base_url) /\
   async_detect base_url hr = Detected (url_fallback base_url)).
Proof.
  intros Hs Hj env hr. subst hr.
  unfold detect_instance_type, async_detect. rewrite Hs, Hj. cbn [Z.eqb].
  unfold py_get. fold env.
  replace (match dict_get kvs "environment" with Some v => Ok v | None => Ok JNull end)
    with (@Ok pyval env) by (unfold env; destruct (dict_get kvs "environment"); reflexivity).
  repeat split; intros; repeat match goal with H : _ = _ |- _ => rewrite H end;
    try reflexivity;
    destruct (contains ":3001" base_url); [reflexivity|];
    destruct (contains ":3000" base_url); reflexivity.
Qed.

(** ** Concrete runs of the further operations *)

Definition signed_out (script : list netresult) : session :=
  mk_session (mk_tm JNull JNull) script.

Definition empty_token_session (script : list netresult) : session :=
  mk_session (mk_tm (JStr EmptyString) (JStr "r")) script.

Definition refresh_t2 : list netresult := [ok200 (JObj [("token", JStr "t2")])].

(** A [func] that raises on its first two calls and then returns. *)
Definition flaky_twice (i : nat) : outcome pyval :=
  if Nat.ltb i 2 then Raise (TransportError "connection reset") else Ok (JStr "done").

Lemma validate_token_without_token_witness :
  validate_token Blocking default_config JNull (signed_out [status_only 200]) =
    (Ok false, signed_out [status_only 200], []).
Proof. apply validate_token_without_token; reflexivity. Defined.

Lemma validate_token_one_call_witness :
  res_of (validate_token Blocking default_config JNull (sess_fresh [status_only 401])) = Ok false /\
  res_of (validate_token Blocking default_config (JStr "x") (signed_out [status_only 500])) =
    Raise (TokenValidationError "Token validation failed with status").
Proof.
  split.
  - rewrite (validate_token_one_call default_config JNull (sess_fresh [status_only 401])
               ltac:(vm_compute; reflexivity)).
    reflexivity.
  - rewrite (validate_token_one_call default_config (JStr "x") (signed_out [status_only 500])
               ltac:(vm_compute; reflexivity)).
    reflexivity.
Defined.

Lemma ensure_valid_token_when_authenticated_witness :
  ensure_at_1000 (sess_fresh []) = (Ok (JStr jwt_fresh), sess_fresh [], []).
Proof.
  exact (ensure_valid_token_when_authenticated b64url_decode json_loads_ascii Blocking
           default_config 1000 (sess_fresh []) ltac:(vm_compute; reflexivity)).
Defined.

Lemma ensure_valid_token_refresh_success_witness :
  res_of (ensure_at_1000 (sess_stale refresh_t2)) = Ok (JStr "t2") /\
  tm_token (tm (state_of (ensure_at_1000 (sess_stale refresh_t2)))) = JStr "t2".
Proof.
  destruct (ensure_valid_token_refresh_success b64url_decode json_loads_ascii Blocking
    default_config 1000 (sess_stale refresh_t2)
    (state_of (refresh_token Blocking default_config (sess_stale refresh_t2))) (JStr "t2")
    (log_of (refresh_token Blocking default_config (sess_stale refresh_t2)))
    ltac:(vm_compute; reflexivity) ltac:(vm_compute; reflexivity)
    ltac:(vm_compute; reflexivity)) as (H & Ht & _).
  unfold ensure_at_1000, res_of, state_of. rewrite H. split; [reflexivity | exact Ht].
Defined.

Lemma make_authenticated_request_without_token_witness :
  run_request (empty_token_session [status_only 200]) =
    (Raise (AuthenticationError "No token available"), empty_token_session [status_only 200], []).
Proof.
  exact (make_authenticated_request_without_token b64url_decode json_loads_ascii Blocking
           default_config 1000 "GET" "/v1/workspaces" [] [] (empty_token_session [status_only 200])
           eq_refl).
Defined.

Lemma make_authenticated_request_first_answer_witness :
  res_of (run_request (sess_fresh [status_only 404])) = Ok (mk_response 404 None) /\
  res_of (run_request (sess_fresh [NetFail "timeout"])) =
    Raise (APIError "API request failed: timeout" None).
Proof.
  pose proof (make_authenticated_request_first_answer b64url_decode json_loads_ascii
    default_config 1000 "GET" "/v1/workspaces" [] [] (sess_fresh [status_only 404])
    (sess_fresh [status_only 404]) (JStr jwt_fresh) [] ltac:(vm_compute; reflexivity)) as [H1 _].
  pose proof (make_authenticated_request_first_answer b64url_decode json_loads_ascii
    default_config 1000 "GET" "/v1/workspaces" [] [] (sess_fresh [NetFail "timeout"])
    (sess_fresh [NetFail "timeout"]) (JStr jwt_fresh) [] ltac:(vm_compute; reflexivity)) as [_ H2].
  cbn zeta in H1, H2. unfold run_request, res_of. split.
  - rewrite (H1 (mk_response 404 None) [] eq_refl ltac:(cbn; discriminate)). reflexivity.
  - rewrite (H2 "timeout" [] eq_refl). reflexivity.
Defined.

Lemma refresh_token_keeps_tokens_on_failure_witness :
  tm (state_of (refresh_token Blocking default_config (sess_stale [status_only 401]))) =
    mk_tm (JStr "old") (JStr "r").
Proof.
  exact (refresh_token_keeps_tokens_on_failure Blocking default_config
           (sess_stale [status_only 401]) (AuthenticationError "Refresh token expired or invalid")
           ltac:(vm_compute; reflexivity)).
Defined.

Lemma refresh_token_rejections_witness :
  res_of (refresh_token Blocking default_config (sess_stale [status_only 503])) =
    Raise (APIError "Token refresh failed with status" (Some 503%Z)).
Proof.
  destruct (refresh_token_rejections default_config (sess_stale [status_only 503])
              eq_refl) as [H _].
  exact (H (mk_response 503 None) [] eq_refl ltac:(cbn; discriminate)).
Defined.

Lemma mask_token_shape_witness :
  String.length (mask_token "sk-123456" 4) = 9%nat /\
  String.get 2 (mask_token "sk-123456" 4) = Some "-"%char /\
  String.get 6 (mask_token "sk-123456" 4) = Some "*"%char.
Proof.
  destruct (mask_token_shape "sk-123456" 4 ltac:(lia)) as [H1 H2].
  split; [exact H1|split].
  - rewrite (H2 2%nat ltac:(cbn; lia)). reflexivity.
  - rewrite (H2 6%nat ltac:(cbn; lia)). reflexivity.
Defined.

Lemma mask_token_negative_visible_witness :
  String.length (mask_token "abcdef" (-2)) = 12%nat /\
  substring 0 4 (mask_token "abcdef" (-2)) = "abcd".
Proof.
  destruct (mask_token_negative_visible "abcdef" (-2) ltac:(lia) ltac:(cbn; lia)) as [H1 H2].
  split; [exact H1 | exact H2].
Defined.

Lemma retry_with_backoff_negative_witness :
  retry_with_backoff flaky_twice (-1) 1 2 = (Ok JNull, 0%nat, []).
Proof. apply retry_with_backoff_negative. lia. Defined.

Lemma sanitize_input_plain_witness : sanitize_input "John Smith" = "John Smith".
Proof.
  apply sanitize_input_plain; [|reflexivity|reflexivity].
  intros c Hc. cbn in Hc. unfold dquote, squote.
  repeat destruct Hc as [Hc|Hc]; subst; try contradiction; repeat split; discriminate.
Defined.

Lemma detect_non_200_witness :
  detect_instance_type "http://localhost:3000" (HealthResp (mk_health 503 None None)) =
    Detected "desktop" /\
  async_detect "http://example.com:3001" (HealthResp (mk_health 404 None None)) =
    Detected "unknown".
Proof.
  split.
  - rewrite (proj1 (detect_non_200 "http://localhost:3000" (mk_health 503 None None)
                     ltac:(cbn; discriminate))).
    reflexivity.
  - rewrite (proj2 (detect_non_200 "http://example.com:3001" (mk_health 404 None None)
                     ltac:(cbn; discriminate))).
    reflexivity.
Defined.

Lemma detect_health_object_witness :
  detect_instance_type "http://myhost:3001" (HealthResp (mk_health 200 (Some (JObj [])) None)) =
    Detected "docker" /\
  async_detect "http://myhost:3001" (HealthResp (mk_health 200 (Some (JObj [])) None)) =
    Detected "unknown".
Proof.
  pose proof (detect_health_object "http://myhost:3001" (mk_health 200 (Some (JObj [])) None) []
                eq_refl eq_refl) as (_ & _ & _ & H).
  cbn zeta in H. destruct (H eq_refl eq_refl eq_refl) as [H1 H2].
  rewrite H1, H2. split; reflexivity.
Defined.
